(** * auth_framework.py: a shallow embedding and its verified properties

    The program is a console script: it reads lines from standard input,
    prints to the terminal, sleeps, reads the clock, draws random numbers
    and UUIDs, and appends lines to [audit_log.txt].  Every such effect is
    made explicit as a field of a [World]; a Python function becomes a
    function from worlds to an outcome and a new world.

    What is taken from the environment:
    - standard input is a finite list of lines; [input] raises [EOFError]
      when it is used up, and the exception ends the run;
    - the clock, the random generator and the UUID generator are arbitrary
      sequences of values; floating-point seconds are kept as rationals;
    - [audit_log.txt] can always be opened for appending;
    - Python strings are kept as their UTF-8 bytes ([string]), and
      [hashlib.sha256] is the function of FIPS 180-4, written out below. *)

From Stdlib Require Import String Ascii ZArith List Lia Bool Arith.
From Stdlib Require Import DecimalString DecimalNat QArith Sorted.
Import ListNotations.

Local Open Scope string_scope.
Local Open Scope Z_scope.

(** ** Text helpers *)

(** The line-feed character, Python's ["\n"]. *)
Definition LF : ascii := ascii_of_nat 10.
Definition nl : string := String LF "".

(** Lower-case hexadecimal digit of a value in 0..15. *)
Definition hex_char (d : Z) : ascii :=
  if d <? 10 then ascii_of_N (Z.to_N (48 + d)) else ascii_of_N (Z.to_N (87 + d)).

(** [hex_digits n z]: the [n] low hexadecimal digits of [z], most
    significant first (Python's ['%0nx' % (z mod 16**n)]). *)
Fixpoint hex_digits (n : nat) (z : Z) : string :=
  match n with
  | O => ""
  | S k => hex_digits k (z / 16) ++ String (hex_char (z mod 16)) ""
  end.

(** The value of a hexadecimal digit, and of a text of them read after
    the digits already worth [acc]. *)
Definition hex_val (c : ascii) : Z :=
  let n := Z.of_N (N_of_ascii c) in
  if n <? 58 then n - 48 else n - 87.

Fixpoint unhex (acc : Z) (s : string) : Z :=
  match s with
  | EmptyString => acc
  | String c r => unhex (acc * 16 + hex_val c) r
  end.

(** Decimal rendering of a natural number, left-padded with zeros to at
    least [width] digits (the [%02d], [%04d] conversions of strftime). *)
Fixpoint zeros (n : nat) : string :=
  match n with
  | O => ""
  | S k => String "0" (zeros k)
  end.

Definition dec (n : nat) : string := NilZero.string_of_uint (Nat.to_uint n).

Definition pad (width n : nat) : string :=
  zeros (width - String.length (dec n)) ++ dec n.

(** [str(i)] for an integer. *)
Definition str_int (z : Z) : string := NilZero.string_of_int (Z.to_int z).

(** [no_newline s]: the text holds no line feed. *)
Fixpoint no_newline (s : string) : bool :=
  match s with
  | EmptyString => true
  | String c r => negb (Ascii.eqb c LF) && no_newline r
  end.

(** ** hashlib.sha256

    The digest of FIPS 180-4 over 32-bit words kept as [Z] with the
    wrap-around written out. *)
Module SHA256.

Definition mask32 : Z := 4294967295.
Definition wrap (x : Z) : Z := x mod 4294967296.
Definition add32 (x y : Z) : Z := wrap (x + y).
Definition rotr (n x : Z) : Z :=
  Z.lor (Z.shiftr x n) (wrap (Z.shiftl x (32 - n))).
Definition not32 (x : Z) : Z := Z.lxor x mask32.

Definition Ch (x y z : Z) : Z := Z.lxor (Z.land x y) (Z.land (not32 x) z).
Definition Maj (x y z : Z) : Z :=
  Z.lxor (Z.lxor (Z.land x y) (Z.land x z)) (Z.land y z).
Definition Sigma0 (x : Z) : Z := Z.lxor (Z.lxor (rotr 2 x) (rotr 13 x)) (rotr 22 x).
Definition Sigma1 (x : Z) : Z := Z.lxor (Z.lxor (rotr 6 x) (rotr 11 x)) (rotr 25 x).
Definition sigma0 (x : Z) : Z := Z.lxor (Z.lxor (rotr 7 x) (rotr 18 x)) (Z.shiftr x 3).
Definition sigma1 (x : Z) : Z := Z.lxor (Z.lxor (rotr 17 x) (rotr 19 x)) (Z.shiftr x 10).

(** The first 64 primes. *)
Definition is_prime (n : nat) : bool :=
  (1 <? n)%nat && forallb (fun d => negb (n mod d =? 0)%nat) (seq 2 (n - 2)).

Definition primes : list Z :=
  map Z.of_nat (filter is_prime (seq 2 310)).

(** The integer cube root below [2 ^ bits], found bit by bit. *)
Fixpoint cube_root (bits : nat) (n r : Z) : Z :=
  match bits with
  | O => r
  | S b =>
      let r' := r + 2 ^ Z.of_nat b in
      cube_root b n (if r' * r' * r' <=? n then r' else r)
  end.

(** The round constants: the first 32 bits of the fractional parts of the
    cube roots of the first 64 primes. *)
Definition K : list Z :=
  map (fun p => wrap (cube_root 36 (p * 2 ^ 96) 0)) primes.

(** The initial hash value: the same of the square roots of the first 8
    primes. *)
Definition H0 : list Z :=
  map (fun p => wrap (Z.sqrt (p * 2 ^ 64))) (firstn 8 primes).

(** The message as bytes. *)
Definition bytes_of (s : string) : list Z :=
  map (fun c => Z.of_N (N_of_ascii c)) (list_ascii_of_string s).

(** Big-endian bytes of [z], [n] of them. *)
Fixpoint be_bytes (n : nat) (z : Z) : list Z :=
  match n with
  | O => []
  | S k => be_bytes k (z / 256) ++ [z mod 256]
  end.

(** Padding: a 1 bit, zeros up to 56 mod 64, the bit length on 64 bits. *)
Definition padded (msg : list Z) : list Z :=
  let len := Z.of_nat (length msg) in
  msg ++ [128] ++ repeat 0 (Z.to_nat ((55 - len) mod 64)) ++ be_bytes 8 (8 * len).

Fixpoint be_word (bs : list Z) (acc : Z) : Z :=
  match bs with
  | [] => acc
  | b :: r => be_word r (acc * 256 + b)
  end.

(** [n] consecutive groups of [size] elements. *)
Fixpoint groups {A} (size n : nat) (l : list A) : list (list A) :=
  match n with
  | O => []
  | S k => firstn size l :: groups size k (skipn size l)
  end.

Definition words_of (block : list Z) : list Z :=
  map (fun bs => be_word bs 0) (groups 4 16 block).

(** The message schedule, extended from 16 to 64 words. *)
Fixpoint schedule (k : nat) (W : list Z) : list Z :=
  match k with
  | O => W
  | S k' =>
      let t := length W in
      let w i := nth (t - i) W 0 in
      schedule k' (W ++ [add32 (add32 (sigma1 (w 2%nat)) (w 7%nat))
                                (add32 (sigma0 (w 15%nat)) (w 16%nat))])
  end.

Record regs := Regs { ra : Z; rb : Z; rc : Z; rd : Z; re : Z; rf : Z; rg : Z; rh : Z }.

Definition round (s : regs) (kw : Z * Z) : regs :=
  let (k, w) := kw in
  let t1 := add32 (add32 (add32 (rh s) (Sigma1 (re s)))
                         (add32 (Ch (re s) (rf s) (rg s)) k)) w in
  let t2 := add32 (Sigma0 (ra s)) (Maj (ra s) (rb s) (rc s)) in
  Regs (add32 t1 t2) (ra s) (rb s) (rc s) (add32 (rd s) t1) (re s) (rf s) (rg s).

Definition regs_of (h : list Z) : regs :=
  Regs (nth 0 h 0) (nth 1 h 0) (nth 2 h 0) (nth 3 h 0)
       (nth 4 h 0) (nth 5 h 0) (nth 6 h 0) (nth 7 h 0).

Definition compress (h : list Z) (block : list Z) : list Z :=
  let W := schedule 48 (words_of block) in
  let s0 := regs_of h in
  let s := fold_left round (combine K W) s0 in
  [ add32 (ra s0) (ra s); add32 (rb s0) (rb s); add32 (rc s0) (rc s);
    add32 (rd s0) (rd s); add32 (re s0) (re s); add32 (rf s0) (rf s);
    add32 (rg s0) (rg s); add32 (rh s0) (rh s) ].

Definition digest (s : string) : list Z :=
  let p := padded (bytes_of s) in
  fold_left compress (groups 64 (length p / 64) p) H0.

(** [hashlib.sha256(s.encode()).hexdigest()] *)
Definition hexdigest (s : string) : string :=
  String.concat "" (map (hex_digits 8) (digest s)).

End SHA256.

(** ** The world the script runs in *)

(** What happens at the terminal, in order. *)
Inductive Event : Type :=
| Print (line : string)
    (** [print(line)] *)
| Input (prompt : string) (reply : option string)
    (** [input(prompt)]; the reply is [None] when standard input has ended *)
| Sleep (seconds : Q).
    (** [time.sleep(seconds)] *)

(** One reading of the system clock: seconds since the epoch for
    [time.time()], the local calendar time for [datetime.now()]. *)
Record DateTime : Type := mkDateTime {
  year : nat; month : nat; day : nat; hour : nat; minute : nat; second : nat
}.

Record Instant : Type := mkInstant { epoch : Q; local : DateTime }.

(** The sources of time, random numbers and UUIDs are sequences fixed by
    the environment; the world counts how many values were taken.
    [audit_log] is the content of [audit_log.txt] as the sequence of
    chunks appended to it, oldest first; the file is assumed writable. *)
Record World : Type := mkWorld {
  stdin : list string;
  terminal : list Event;
  clock_src : nat -> Instant;
  clock_reads : nat;
  rand_src : nat -> Z;
  rand_draws : nat;
  uuid_src : nat -> Z;
  uuid_draws : nat;
  audit_log : list string
}.

Definition emit (e : Event) (w : World) : World :=
  mkWorld (stdin w) (terminal w ++ [e]) (clock_src w) (clock_reads w)
          (rand_src w) (rand_draws w) (uuid_src w) (uuid_draws w) (audit_log w).

Definition set_stdin (l : list string) (w : World) : World :=
  mkWorld l (terminal w) (clock_src w) (clock_reads w)
          (rand_src w) (rand_draws w) (uuid_src w) (uuid_draws w) (audit_log w).

Definition tick (w : World) : World :=
  mkWorld (stdin w) (terminal w) (clock_src w) (S (clock_reads w))
          (rand_src w) (rand_draws w) (uuid_src w) (uuid_draws w) (audit_log w).

Definition next_rand (w : World) : World :=
  mkWorld (stdin w) (terminal w) (clock_src w) (clock_reads w)
          (rand_src w) (S (rand_draws w)) (uuid_src w) (uuid_draws w) (audit_log w).

Definition next_uuid (w : World) : World :=
  mkWorld (stdin w) (terminal w) (clock_src w) (clock_reads w)
          (rand_src w) (rand_draws w) (uuid_src w) (S (uuid_draws w)) (audit_log w).

Definition append_log (chunk : string) (w : World) : World :=
  mkWorld (stdin w) (terminal w) (clock_src w) (clock_reads w)
          (rand_src w) (rand_draws w) (uuid_src w) (uuid_draws w)
          (audit_log w ++ [chunk]).

(** ** Computations: state passing with Python exceptions *)

Inductive exn : Type :=
| EOFError
| KeyError (key : string).

Inductive Outcome (A : Type) : Type :=
| Ok (a : A)
| Raise (e : exn)
| OutOfFuel.

Arguments Ok {A} a.
Arguments Raise {A} e.
Arguments OutOfFuel {A}.

Definition M (A : Type) : Type := World -> Outcome A * World.

Definition ret {A} (a : A) : M A := fun w => (Ok a, w).

Definition raise {A} (e : exn) : M A := fun w => (Raise e, w).

Definition bind {A B} (m : M A) (k : A -> M B) : M B :=
  fun w =>
    match m w with
    | (Ok a, w') => k a w'
    | (Raise e, w') => (Raise e, w')
    | (OutOfFuel, w') => (OutOfFuel, w')
    end.

Declare Scope prog_scope.
Delimit Scope prog_scope with prog.
Notation "x <- m ;; k" := (bind m (fun x => k))
  (at level 61, m at next level, right associativity) : prog_scope.
Notation "m ;; k" := (bind m (fun _ => k))
  (at level 61, right associativity) : prog_scope.
Local Open Scope prog_scope.

(** *** The built-in effects *)

Definition print (line : string) : M unit :=
  fun w => (Ok tt, emit (Print line) w).

(** [input(prompt)] writes the prompt, then takes the next line of
    standard input, or raises [EOFError] when there is none. *)
Definition input (prompt : string) : M string :=
  fun w =>
    match stdin w with
    | [] => (Raise EOFError, emit (Input prompt None) w)
    | line :: rest => (Ok line, set_stdin rest (emit (Input prompt (Some line)) w))
    end.

Definition sleep (seconds : Q) : M unit :=
  fun w => (Ok tt, emit (Sleep seconds) w).

(** [time.time()] *)
Definition time_time : M Q :=
  fun w => (Ok (epoch (clock_src w (clock_reads w))), tick w).

(** [datetime.now()] *)
Definition datetime_now : M DateTime :=
  fun w => (Ok (local (clock_src w (clock_reads w))), tick w).

(** [random.randint(lo, hi)]: the next value of the source, brought into
    the closed range. *)
Definition randint (lo hi : Z) : M Z :=
  fun w => (Ok (lo + rand_src w (rand_draws w) mod (hi - lo + 1)), next_rand w).

(** [uuid.uuid4()]: 128 random bits with the variant and version fields
    overwritten as the library does. *)
Definition uuid4_of_bits (r : Z) : Z :=
  let i := r mod 2 ^ 128 in
  let i := Z.ldiff i (Z.shiftl 0xc000 48) in
  let i := Z.lor i (Z.shiftl 0x8000 48) in
  let i := Z.ldiff i (Z.shiftl 0xf000 64) in
  Z.lor i (Z.shiftl 4 76).

(** The [n]-th UUID the environment hands out. *)
Definition nth_uuid (w : World) (n : nat) : Z := uuid4_of_bits (uuid_src w n).

Definition uuid4 : M Z :=
  fun w => (Ok (nth_uuid w (uuid_draws w)), next_uuid w).

(** [str(u)] for a UUID: 32 hexadecimal digits grouped 8-4-4-4-12. *)
Definition str_uuid (u : Z) : string :=
  hex_digits 8 (u / 2 ^ 96) ++ "-" ++ hex_digits 4 (u / 2 ^ 80) ++ "-" ++
  hex_digits 4 (u / 2 ^ 64) ++ "-" ++ hex_digits 4 (u / 2 ^ 48) ++ "-" ++
  hex_digits 12 u.

(** [d.strftime("%Y-%m-%d %H:%M:%S")] *)
Definition strftime (d : DateTime) : string :=
  pad 4 (year d) ++ "-" ++ pad 2 (month d) ++ "-" ++ pad 2 (day d) ++ " " ++
  pad 2 (hour d) ++ ":" ++ pad 2 (minute d) ++ ":" ++ pad 2 (second d).

(** [s.lower()].  Only the ASCII letters are mapped; no other character
    lowers to an ASCII letter of "scan", the one word this program
    compares a lowered text with. *)
Definition lower_char (c : ascii) : ascii :=
  let n := nat_of_ascii c in
  if ((65 <=? n) && (n <=? 90))%nat then ascii_of_nat (n + 32) else c.

Fixpoint lower (s : string) : string :=
  match s with
  | EmptyString => EmptyString
  | String c r => String (lower_char c) (lower r)
  end.

(** Dictionaries with string keys, in insertion order. *)
Definition dict : Type := list (string * string).

Fixpoint dict_find (k : string) (d : dict) : option string :=
  match d with
  | [] => None
  | (k', v) :: r => if String.eqb k k' then Some v else dict_find k r
  end.

(** [k in d] *)
Definition dict_mem (k : string) (d : dict) : bool :=
  match dict_find k d with Some _ => true | None => false end.

(** [d[k]] *)
Definition dict_get (d : dict) (k : string) : M string :=
  match dict_find k d with
  | Some v => ret v
  | None => raise (KeyError k)
  end.

(** ** The program *)

Definition hash_pin (pin : string) : string := SHA256.hexdigest pin.

Definition USER_DB : dict :=
  [ ("admin", SHA256.hexdigest "4269");
    ("analyst", SHA256.hexdigest "3141");
    ("guest", SHA256.hexdigest "1234") ].

Definition USER_ROLES : dict :=
  [ ("admin", "Admin"); ("analyst", "Analyst"); ("guest", "Guest") ].

Definition MAX_ATTEMPTS : Z := 3.
Definition LOCKOUT_DURATION : Q := 30%Q.

(** [log_to_file(entry)]: one write of the entry and a line feed at the
    end of the file. *)
Definition log_to_file (entry : string) : M unit :=
  fun w => (Ok tt, append_log (entry ++ nl) w).

(** *** verify_pin *)

(** The local variables of [verify_pin]. *)
Record Locals : Type := mkLocals {
  attempts : Z;
  lockout_start : option Q
}.

(** How one turn of the [while] loop ends: at the bottom of the body, or
    at a [return]; both with the values the locals then have. *)
Inductive Ctl : Type :=
| Continue (l : Locals)
| Return (result : bool) (l : Locals).

Definition Qlt_bool (a b : Q) : bool := negb (Qle_bool b a).

(** Python's truth value of [lockout_start]: [None] and [0.0] are false. *)
Definition truthy (t : option Q) : bool :=
  match t with
  | None => false
  | Some q => negb (Qeq_bool q 0)
  end.

(** [lockout_start and time.time() - lockout_start < LOCKOUT_DURATION];
    the clock is read only when the left operand is true. *)
Definition locked_out (l : Locals) : M bool :=
  match lockout_start l with
  | Some t0 =>
      if truthy (Some t0) then
        now <- time_time ;;
        ret (Qlt_bool (now - t0) LOCKOUT_DURATION)
      else ret false
  | None => ret false
  end.

Definition msg_locked : string := "⏳ Account locked. Try again later.".
Definition msg_too_many : string := "🚫 Too many failed attempts. Account locked.".
Definition prompt_pin : string := "Enter PIN: ".
Definition msg_incorrect (attempts : Z) : string :=
  "❌ Incorrect PIN. Attempts left: " ++ str_int (MAX_ATTEMPTS - attempts).

(** The body of the loop. *)
Definition verify_pin_body (username : string) (l : Locals) : M Ctl :=
  locked <- locked_out l ;;
  if locked then
    print msg_locked ;;
    ret (Return false l)
  else
    pin <- input prompt_pin ;;
    stored <- dict_get USER_DB username ;;
    if String.eqb (hash_pin pin) stored then ret (Return true l)
    else
      let l := mkLocals (attempts l + 1) (lockout_start l) in
      print (msg_incorrect (attempts l)) ;;
      if attempts l >=? MAX_ATTEMPTS then
        now <- time_time ;;
        let l := mkLocals (attempts l) (Some now) in
        print msg_too_many ;;
        ret (Return false l)
      else ret (Continue l).

(** [while attempts < MAX_ATTEMPTS: body], then [return False]. *)
Fixpoint verify_pin_loop (fuel : nat) (username : string) (l : Locals) : M bool :=
  match fuel with
  | O => fun w => (OutOfFuel, w)
  | S fuel' =>
      if attempts l <? MAX_ATTEMPTS then
        c <- verify_pin_body username l ;;
        match c with
        | Continue l' => verify_pin_loop fuel' username l'
        | Return result _ => ret result
        end
      else ret false
  end.

(** Every turn that does not return adds one to [attempts], so the loop
    makes no more than [MAX_ATTEMPTS] turns and one last test. *)
Definition verify_pin (username : string) : M bool :=
  verify_pin_loop (S (Z.to_nat MAX_ATTEMPTS)) username (mkLocals 0 None).

(** *** The other two factors *)

Definition prompt_scan : string := "Simulate biometric scan (type 'scan'): ".
Definition prompt_otp : string := "Enter OTP: ".

Definition simulate_biometric : M bool :=
  print "🔄 Contacting biometric API..." ;;
  sleep (3 # 2) ;;
  scan <- input prompt_scan ;;
  if negb (String.eqb (lower scan) "scan") then
    print "❌ Biometric scan failed." ;;
    ret false
  else
    print "✅ Biometric scan accepted." ;;
    ret true.

Definition simulate_otp : M bool :=
  code <- randint 100000 999999 ;;
  let otp := str_int code in
  print "📡 Sending OTP..." ;;
  sleep 1 ;;
  print ("Your OTP is: " ++ otp) ;;
  entered <- input prompt_otp ;;
  if negb (String.eqb entered otp) then
    print "❌ MFA failed." ;;
    ret false
  else
    print "✅ MFA verified." ;;
    ret true.

(** *** Routing and logging *)

Definition forensic_module : M unit :=
  print (nl ++ "🧪 Forensic Evidence System") ;;
  evidence_id <- input "Enter evidence ID to tag: " ;;
  note <- input "Enter chain-of-custody note: " ;;
  print "✅ Evidence tagged and logged." ;;
  log_to_file ("[FORENSIC] Evidence ID: " ++ evidence_id ++ ", Note: " ++ note).

Definition route_to_module (role : string) : M unit :=
  if String.eqb role "Admin" then
    print "🔧 Routing to Admin Control Panel..." ;;
    print "Simulated SPA endpoint: /admin/dashboard"
  else if String.eqb role "Analyst" then
    print "🔍 Routing to Forensic Evidence Dashboard..." ;;
    forensic_module
  else if String.eqb role "Guest" then
    print "📄 Routing to Read-Only SPA Toolkit..." ;;
    print "Simulated SPA endpoint: /guest/view"
  else
    print "⚠️ Unknown role.".

Definition status_tag (success : bool) : string :=
  if success then "SUCCESS" else "FAILURE".

(** The text of an audit entry, without the line feed. *)
Definition audit_entry (username role : string) (success : bool)
    (timestamp token : string) : string :=
  "[AUDIT] " ++ status_tag success ++ " login for '" ++ username ++ "' (" ++ role ++
  ") at " ++ timestamp ++ " | Token: " ++ token.

Definition log_audit (username role : string) (success : bool) (token : string)
    : M unit :=
  now <- datetime_now ;;
  let timestamp := strftime now in
  let entry := audit_entry username role success timestamp token in
  print entry ;;
  log_to_file entry.

(** *** main *)

Definition banner : M unit :=
  print "===============================================" ;;
  print "  Enterprise Auth Framework by Devin B. Royal   " ;;
  print "  Forensic + SPA Toolkit Integration Ready      " ;;
  print ("===============================================" ++ nl).

Definition prompt_username : string := "Enter username: ".

Definition main : M unit :=
  banner ;;
  username <- input prompt_username ;;
  if negb (dict_mem username USER_DB) then
    print "🚫 Unknown user."
  else
    pin_ok <- verify_pin username ;;
    if negb pin_ok then ret tt
    else
      scan_ok <- simulate_biometric ;;
      if negb scan_ok then ret tt
      else
        otp_ok <- simulate_otp ;;
        if negb otp_ok then ret tt
        else
          role <- dict_get USER_ROLES username ;;
          u <- uuid4 ;;
          let token := str_uuid u in
          log_audit username role true token ;;
          print "✅ Access granted." ;;
          print ("Session Token: " ++ token) ;;
          print ("Role: " ++ role) ;;
          route_to_module role.

(** ** Observations on runs *)

Local Open Scope list_scope.

(** One session is one run of [main]; the next session starts in the
    world the previous one left (the terminal, the clock and the log file
    live on, the variables of the script do not). *)
Definition run {A} (m : M A) (w : World) : World := snd (m w).
Definition outcome {A} (m : M A) (w : World) : Outcome A := fst (m w).

(** The three factors, and the prompt by which each shows at the
    terminal: every call of a factor reaches its prompt, and no other
    code writes it. *)
Inductive Factor : Type := Secret | Biometric | Otp.

Definition factor_of (e : Event) : option Factor :=
  match e with
  | Input p _ =>
      if String.eqb p prompt_pin then Some Secret
      else if String.eqb p prompt_scan then Some Biometric
      else if String.eqb p prompt_otp then Some Otp
      else None
  | _ => None
  end.

Fixpoint factors_run (evs : list Event) : list Factor :=
  match evs with
  | [] => []
  | e :: r =>
      match factor_of e with
      | Some f => f :: factors_run r
      | None => factors_run r
      end
  end.

Definition factor_rank (f : Factor) : nat :=
  match f with Secret => 0 | Biometric => 1 | Otp => 2 end.

Definition factor_le (f g : Factor) : Prop := (factor_rank f <= factor_rank g)%nat.

(** The replies given to one prompt, in order. *)
Fixpoint replies (prompt : string) (evs : list Event) : list (option string) :=
  match evs with
  | [] => []
  | Input p r :: rest =>
      if String.eqb p prompt then r :: replies prompt rest else replies prompt rest
  | _ :: rest => replies prompt rest
  end.

(** A PIN that hashes to the stored digest. *)
Definition pin_matches (stored : string) (reply : option string) : bool :=
  match reply with
  | Some pin => String.eqb (hash_pin pin) stored
  | None => false
  end.

(** The loop heads of [verify_pin username] started in [w0]: the locals
    and the world each time the [while] test is evaluated. *)
Inductive loop_head (username : string) (w0 : World) : Locals -> World -> Prop :=
| head_first : loop_head username w0 (mkLocals 0 None) w0
| head_next l w l' w' :
    loop_head username w0 l w ->
    attempts l < MAX_ATTEMPTS ->
    verify_pin_body username l w = (Ok (Continue l'), w') ->
    loop_head username w0 l' w'.

(** How a session ends, read off the results of the stages that [main]
    runs one after the other. *)
Inductive Verdict : Type :=
| UnknownPrincipal
| SecretFailed
| BiometricFailed
| OtpFailed
| Granted (username : string)
| Aborted.

Definition session_verdict (w : World) : Verdict :=
  match (banner ;; input prompt_username) w with
  | (Ok username, w1) =>
      if negb (dict_mem username USER_DB) then UnknownPrincipal
      else
        match verify_pin username w1 with
        | (Ok true, w2) =>
            match simulate_biometric w2 with
            | (Ok true, w3) =>
                match simulate_otp w3 with
                | (Ok true, _) => Granted username
                | (Ok false, _) => OtpFailed
                | _ => Aborted
                end
            | (Ok false, _) => BiometricFailed
            | _ => Aborted
            end
        | (Ok false, _) => SecretFailed
        | _ => Aborted
        end
  | _ => Aborted
  end.

(** Audit entries in the log file: the chunks written by [log_audit]. *)
Definition is_audit (status chunk : string) : bool :=
  prefix ("[AUDIT] " ++ status) chunk.

Definition count_audit (status : string) (log : list string) : nat :=
  length (filter (is_audit status) log).

(** [frame w w' evs chunks dc dr du]: from [w] to [w'] the terminal
    gained the events [evs], the log file the chunks [chunks], the clock
    was read [dc] times, [dr] random numbers and [du] UUIDs were drawn,
    and nothing else of the environment changed. *)
Record frame (w w' : World) (evs : list Event) (chunks : list string)
    (dc dr du : nat) : Prop := mkFrame {
  fr_terminal : terminal w' = terminal w ++ evs;
  fr_log : audit_log w' = audit_log w ++ chunks;
  fr_clock : clock_reads w' = (clock_reads w + dc)%nat;
  fr_rand : rand_draws w' = (rand_draws w + dr)%nat;
  fr_uuid : uuid_draws w' = (uuid_draws w + du)%nat;
  fr_clock_src : clock_src w' = clock_src w;
  fr_rand_src : rand_src w' = rand_src w;
  fr_uuid_src : uuid_src w' = uuid_src w
}.

(** What a call of [verify_pin] that started in [w] with room for
    [budget] more attempts has done when it ends with [out] in [w']. *)
Definition pin_post (stored : string) (budget : nat) (w : World)
    (out : Outcome bool) (w' : World) : Prop :=
  exists evs dc,
    frame w w' evs [] dc 0 0 /\
    factors_run evs = repeat Secret (length (replies prompt_pin evs)) /\
    (length (replies prompt_pin evs) <= budget)%nat /\
    ~ In (Print msg_locked) evs /\
    match out with
    | Ok result =>
        result = existsb (pin_matches stored) (replies prompt_pin evs) /\
        (exists pins, replies prompt_pin evs = map Some pins /\
                      stdin w = pins ++ stdin w') /\
        (if result then dc = 0%nat
         else length (replies prompt_pin evs) = budget /\ dc = Nat.min 1 budget)
    | Raise e =>
        e = EOFError /\
        replies prompt_pin evs = map Some (stdin w) ++ [None] /\
        dc = 0%nat
    | OutOfFuel => False
    end.

(** The last block of [main], run once the three factors have passed. *)
Definition grant_access (username : string) : M unit :=
  role <- dict_get USER_ROLES username ;;
  u <- uuid4 ;;
  let token := str_uuid u in
  log_audit username role true token ;;
  print "✅ Access granted." ;;
  print ("Session Token: " ++ token) ;;
  print ("Role: " ++ role) ;;
  route_to_module role.

(** What one session that started in [w] has done when [main] ends
    with [out]: which factor prompts were shown ([k] for the PIN, [b] for
    the scan, [o] for the OTP, in that order), what went to the log file,
    and how many values were drawn, for each way the session can end. *)
Definition session_post (w : World) (v : Verdict) (out : Outcome unit)
    (evs : list Event) (chunks : list string) (dc dr du : nat) : Prop :=
  exists k b o : nat,
    factors_run evs = repeat Secret k ++ repeat Biometric b ++ repeat Otp o /\
    (k <= Z.to_nat MAX_ATTEMPTS)%nat /\
    (o <= b)%nat /\ (b <= 1)%nat /\ (b <= k)%nat /\
    dr = o /\
    match v with
    | UnknownPrincipal =>
        k = 0%nat /\ chunks = [] /\ du = 0%nat /\ out = Ok tt
    | SecretFailed =>
        k = Z.to_nat MAX_ATTEMPTS /\ b = 0%nat /\ chunks = [] /\ du = 0%nat /\
        out = Ok tt
    | BiometricFailed =>
        b = 1%nat /\ o = 0%nat /\ chunks = [] /\ du = 0%nat /\ out = Ok tt
    | OtpFailed =>
        o = 1%nat /\ chunks = [] /\ du = 0%nat /\ out = Ok tt
    | Granted username =>
        o = 1%nat /\ du = 1%nat /\ dc = 1%nat /\
        dict_mem username USER_DB = true /\
        exists role forensic,
          dict_find username USER_ROLES = Some role /\
          chunks =
            (audit_entry username role true
               (strftime (local (clock_src w (clock_reads w))))
               (str_uuid (nth_uuid w (uuid_draws w))) ++ nl)%string :: forensic /\
          filter (is_audit "") forensic = [] /\
          (out = Ok tt \/ out = Raise EOFError)
    | Aborted =>
        chunks = [] /\ du = 0%nat /\ out = Raise EOFError
    end.

(** A chunk that is exactly one line: text without line feed, then one. *)
Definition one_line (chunk : string) : Prop :=
  exists body, chunk = (body ++ nl)%string /\ no_newline body = true.

(** The tokens handed out before the current session. *)
Definition issued_before (w : World) (token : string) : Prop :=
  exists n, (n < uuid_draws w)%nat /\ token = str_uuid (nth_uuid w n).

(** [log_audit] called once per element. *)
Fixpoint log_all (calls : list (string * string * bool * string)) : M unit :=
  match calls with
  | [] => ret tt
  | (username, role, success, token) :: rest =>
      log_audit username role success token ;; log_all rest
  end.

(** A world for examples: the clock starts at 2025-07-04 09:05:00 and
    advances one second per reading. *)
Definition demo_clock (n : nat) : Instant :=
  mkInstant (Z.of_nat n # 1) (mkDateTime 2025 7 4 9 5 n).

Definition demo_world (lines : list string) : World :=
  mkWorld lines [] demo_clock 0
          (fun n => 23456 + Z.of_nat n) 0
          (fun n => 0x123456789abcdef0123456789abcdef0 + Z.of_nat n) 0
          [].

(** A clock read several times within one second. *)
Definition burst_clock (n : nat) : Instant :=
  mkInstant (17516199000 + Z.of_nat n # 10) (mkDateTime 2025 7 4 9 5 0).

Definition burst_world : World :=
  mkWorld [] [] burst_clock 0 (fun _ => 0) 0 (fun _ => 0) 0 [].

(** A way to read a sequence identifier off a persisted record, such
    that each record written has the identifier of the record written
    just before it, plus one. *)
Definition sequence_numbered (seq_id : string -> Z) : Prop :=
  forall (w : World) (call1 call2 : string * string * bool * string),
    let w1 := run (log_all [call1]) w in
    let w2 := run (log_all [call2]) w1 in
    seq_id (last (audit_log w2) "") = seq_id (last (audit_log w1) "") + 1.

(** A later session: two UUIDs were drawn and one line logged before. *)
Definition later_world (lines : list string) : World :=
  mkWorld lines [] demo_clock 0
          (fun n => 23456 + Z.of_nat n) 0
          (fun n => 0x123456789abcdef0123456789abcdef0 + Z.of_nat n) 2
          [("earlier line" ++ nl)%string].

(** The sixteen ways to write "scan" in upper and lower case letters. *)
Definition scan_spellings : list string :=
  [ "scan"; "scaN"; "scAn"; "scAN";
    "sCan"; "sCaN"; "sCAn"; "sCAN";
    "Scan"; "ScaN"; "ScAn"; "ScAN";
    "SCan"; "SCaN"; "SCAn"; "SCAN" ].

(** ** Further observations *)

(** A PIN that does not hash to the stored digest. *)
Definition wrong_pin (stored pin : string) : bool :=
  negb (String.eqb (hash_pin pin) stored).

(** What [verify_pin] makes of the lines waiting on standard input when
    [budget] attempts are left: the result ([None] when input ends at a
    prompt) and the lines it leaves. *)
Fixpoint scan_pins (stored : string) (budget : nat) (lines : list string)
    : option bool * list string :=
  match budget with
  | O => (Some false, lines)
  | S b =>
      match lines with
      | [] => (None, [])
      | pin :: rest =>
          if String.eqb (hash_pin pin) stored then (Some true, rest)
          else scan_pins stored b rest
      end
  end.

(** The message that announces access, and the text of a forensic entry
    (without the line feed). *)
Definition msg_granted : string := "✅ Access granted.".

Definition forensic_entry (evidence_id note : string) : string :=
  "[FORENSIC] Evidence ID: " ++ evidence_id ++ ", Note: " ++ note.

(** The OTP that [simulate_otp] generates when called in [w]. *)
Definition next_otp (w : World) : string :=
  str_int (100000 + rand_src w (rand_draws w) mod 900000).

(** The verdict of a session read off the waiting input lines alone. *)
Definition input_verdict (w : World) : Verdict :=
  match stdin w with
  | [] => Aborted
  | username :: lines =>
      match dict_find username USER_DB with
      | None => UnknownPrincipal
      | Some stored =>
          match scan_pins stored 3 lines with
          | (None, _) => Aborted
          | (Some false, _) => SecretFailed
          | (Some true, []) => Aborted
          | (Some true, scan :: lines') =>
              if String.eqb (lower scan) "scan" then
                match lines' with
                | [] => Aborted
                | entered :: _ =>
                    if String.eqb entered (next_otp w) then Granted username
                    else OtpFailed
                end
              else BiometricFailed
          end
      end
  end.

(** Input that opens a session for [username] and leaves [rest]: the
    name of a principal of the credential store, fewer than three PINs
    that do not match, one that does, a spelling of "scan", and the OTP
    that the session generates. *)
Definition granting_input (w : World) (username : string) (rest : list string)
    : Prop :=
  exists stored wrong pin scan entered,
    stdin w = username :: wrong ++ pin :: scan :: entered :: rest /\
    dict_find username USER_DB = Some stored /\
    (length wrong < 3)%nat /\
    forallb (wrong_pin stored) wrong = true /\
    hash_pin pin = stored /\
    lower scan = "scan" /\
    entered = next_otp w.

(** [steps P w w']: from [w] to [w'] the terminal gained events that all
    satisfy [P]. *)
Definition steps (P : Event -> Prop) (w w' : World) : Prop :=
  exists evs, terminal w' = terminal w ++ evs /\ Forall P evs.

(** An event other than the two announcements: access granted, account
    locked. *)
Definition not_announcing (e : Event) : Prop :=
  e <> Print msg_granted /\ e <> Print msg_locked.

(** A world whose UUID generator returns the same value every time. *)
Definition repeating_world (lines : list string) : World :=
  mkWorld lines [] demo_clock 0
          (fun n => 23456 + Z.of_nat n) 0
          (fun _ => 0x123456789abcdef0123456789abcdef0) 0
          [].

(** The decimal numeral [r] with the digit [k] put in front. *)
Definition digit_cons (k : nat) (r : Decimal.uint) : Decimal.uint :=
  match k with
  | 0 => Decimal.D0 r | 1 => Decimal.D1 r | 2 => Decimal.D2 r
  | 3 => Decimal.D3 r | 4 => Decimal.D4 r | 5 => Decimal.D5 r
  | 6 => Decimal.D6 r | 7 => Decimal.D7 r | 8 => Decimal.D8 r
  | _ => Decimal.D9 r
  end%nat.

(** * Properties *)

(** ** hashlib.sha256 against its test vectors *)

Example sha256_empty :
  SHA256.hexdigest "" =
  "e3b0c44298fc1c149afbf4c8996fb92427ae41e4649b934ca495991b7852b855".
Proof. vm_compute. reflexivity. Qed.

Example sha256_abc :
  SHA256.hexdigest "abc" =
  "ba7816bf8f01cfea414140de5dae2223b00361a396177a9cb410ff61f20015ad".
Proof. vm_compute. reflexivity. Qed.

Example sha256_two_blocks :
  SHA256.hexdigest "abcdbcdecdefdefgefghfghighijhijkijkljklmklmnlmnomnopnopq" =
  "248d6a61d20638b8e5c026930c3e6039a33ce45964ff2167f6ecedd419db06c1".
Proof. vm_compute. reflexivity. Qed.

Example sha256_constants :
  length SHA256.K = 64%nat /\
  nth 0 SHA256.K 0 = 0x428a2f98 /\ nth 63 SHA256.K 0 = 0xc67178f2 /\
  nth 0 SHA256.H0 0 = 0x6a09e667 /\ nth 7 SHA256.H0 0 = 0x5be0cd19.
Proof. vm_compute. repeat split; reflexivity. Qed.


(** ** Worlds and frames *)

Ltac world_simpl :=
  cbn [terminal stdin audit_log clock_src clock_reads rand_src rand_draws
       uuid_src uuid_draws emit set_stdin tick next_rand next_uuid append_log
       fst snd] in *.

(** Closes a [frame] between a world and an explicit chain of updates. *)
Ltac frame_explicit :=
  constructor; world_simpl; rewrite <- ?app_assoc; cbn [app];
  rewrite ?app_nil_r; first [reflexivity | lia].

Lemma snoc_eq {A} (l l' evs : list A) (e : A) :
  l' = l ++ evs -> l' ++ [e] = l ++ (evs ++ [e]).
Proof. intros ->. apply eq_sym, app_assoc. Qed.

(** The same when the events are still to be found. *)
Ltac frame_infer :=
  constructor; world_simpl;
  [ repeat apply snoc_eq; apply eq_sym, app_nil_r
  | first [reflexivity | apply eq_sym, app_nil_r]
  | lia | lia | lia | reflexivity | reflexivity | reflexivity ].

Lemma frame_refl w : frame w w [] [] 0 0 0.
Proof. frame_explicit. Qed.

Lemma frame_trans w1 w2 w3 e1 e2 c1 c2 dc1 dc2 dr1 dr2 du1 du2 :
  frame w1 w2 e1 c1 dc1 dr1 du1 ->
  frame w2 w3 e2 c2 dc2 dr2 du2 ->
  frame w1 w3 (e1 ++ e2) (c1 ++ c2) (dc1 + dc2) (dr1 + dr2) (du1 + du2).
Proof.
  intros [T1 L1 C1 R1 U1 CS1 RS1 US1] [T2 L2 C2 R2 U2 CS2 RS2 US2].
  constructor; try congruence.
  - rewrite T2, T1. apply eq_sym, app_assoc.
  - rewrite L2, L1. apply eq_sym, app_assoc.
  - lia.
  - lia.
  - lia.
Qed.

(** ** The trace observers *)

Lemma factors_run_app a b : factors_run (a ++ b) = factors_run a ++ factors_run b.
Proof.
  induction a as [|e a IH]; [reflexivity|].
  cbn [app factors_run]. destruct (factor_of e); rewrite IH; reflexivity.
Qed.

Lemma replies_app p a b : replies p (a ++ b) = replies p a ++ replies p b.
Proof.
  induction a as [|e a IH]; [reflexivity|].
  cbn [app replies]. destruct e as [s|q r|d]; try exact IH.
  destruct (String.eqb q p); rewrite IH; reflexivity.
Qed.

Lemma factors_run_pin r evs :
  factors_run (Input prompt_pin r :: evs) = Secret :: factors_run evs.
Proof. reflexivity. Qed.

Lemma factors_run_print s evs : factors_run (Print s :: evs) = factors_run evs.
Proof. reflexivity. Qed.

Lemma factors_run_sleep d evs : factors_run (Sleep d :: evs) = factors_run evs.
Proof. reflexivity. Qed.

Lemma replies_pin r evs :
  replies prompt_pin (Input prompt_pin r :: evs) = r :: replies prompt_pin evs.
Proof. reflexivity. Qed.

Lemma replies_print p s evs : replies p (Print s :: evs) = replies p evs.
Proof. reflexivity. Qed.

Lemma factors_run_nil : factors_run [] = [].
Proof. reflexivity. Qed.

Lemma replies_nil p : replies p [] = [].
Proof. reflexivity. Qed.

Create Rewrite HintDb trace.
#[local] Hint Rewrite factors_run_pin factors_run_print factors_run_sleep
  replies_pin replies_print factors_run_nil replies_nil : trace.

(** ** verify_pin *)

Lemma locked_out_open (l : Locals) (w : World) :
  lockout_start l = None -> locked_out l w = (Ok false, w).
Proof. unfold locked_out. intros ->. reflexivity. Qed.

(** One turn of the loop when no lockout has been recorded. *)
Lemma verify_pin_body_open username l w :
  lockout_start l = None ->
  verify_pin_body username l w =
  match stdin w with
  | [] => (Raise EOFError, emit (Input prompt_pin None) w)
  | pin :: rest =>
      let w1 := set_stdin rest (emit (Input prompt_pin (Some pin)) w) in
      match dict_find username USER_DB with
      | None => (Raise (KeyError username), w1)
      | Some stored =>
          if String.eqb (hash_pin pin) stored then (Ok (Return true l), w1)
          else
            let w2 := emit (Print (msg_incorrect (attempts l + 1))) w1 in
            if attempts l + 1 >=? MAX_ATTEMPTS then
              (Ok (Return false
                     (mkLocals (attempts l + 1)
                               (Some (epoch (clock_src w (clock_reads w)))))),
               emit (Print msg_too_many) (tick w2))
            else (Ok (Continue (mkLocals (attempts l + 1) None)), w2)
      end
  end.
Proof.
  intros Hopen. unfold verify_pin_body, bind.
  rewrite (locked_out_open l w Hopen).
  unfold input, dict_get. destruct (stdin w) as [|pin rest]; [reflexivity|].
  cbn [stdin set_stdin emit].
  destruct (dict_find username USER_DB) as [stored|]; [|reflexivity].
  unfold ret at 1.
  destruct (String.eqb (hash_pin pin) stored); [reflexivity|].
  rewrite Hopen. unfold print, time_time, ret. cbn [attempts lockout_start].
  destruct (attempts l + 1 >=? MAX_ATTEMPTS); reflexivity.
Qed.

(** A turn that reaches the bottom of the body leaves [lockout_start] as
    it found it: the one assignment to it is followed by a [return]. *)
Lemma body_continue_keeps_lockout username l w l' w' :
  verify_pin_body username l w = (Ok (Continue l'), w') ->
  lockout_start l' = lockout_start l /\ attempts l' = attempts l + 1.
Proof.
  unfold verify_pin_body, bind, print, input, dict_get, time_time, ret, raise.
  destruct (locked_out l w) as [[[|]| |] w1]; try discriminate.
  destruct (stdin w1) as [|pin rest]; try discriminate.
  destruct (dict_find username USER_DB) as [stored|]; try discriminate.
  destruct (String.eqb (hash_pin pin) stored); try discriminate.
  cbn [attempts lockout_start].
  destruct (attempts l + 1 >=? MAX_ATTEMPTS); try discriminate.
  intros H. injection H as <- _. split; reflexivity.
Qed.

(** The invariant of the loop: at every loop head no lockout is recorded. *)
Lemma loop_head_open username w0 l w :
  loop_head username w0 l w -> lockout_start l = None.
Proof.
  induction 1 as [|l w l' w' _ IH _ Hbody]; [reflexivity|].
  destruct (body_continue_keeps_lockout _ _ _ _ _ Hbody) as [-> _]. exact IH.
Qed.

Lemma incorrect_is_not_locked n : Print (msg_incorrect n) <> Print msg_locked.
Proof. unfold msg_incorrect, msg_locked. cbn [String.append]. discriminate. Qed.

Ltac not_locked :=
  lazymatch goal with |- ~ In _ _ => intro | _ => idtac end;
  match goal with
  | H : In (Print msg_locked) _ |- False =>
      cbn [In] in H;
      repeat (destruct H as [H|H];
              [first [discriminate H | exact (incorrect_is_not_locked _ H)]|]);
      first [contradiction | auto]
  end.

Lemma verify_pin_loop_spec username stored :
  dict_find username USER_DB = Some stored ->
  forall fuel l w budget,
    lockout_start l = None ->
    budget = Z.to_nat (MAX_ATTEMPTS - attempts l) ->
    (budget < fuel)%nat ->
    pin_post stored budget w
             (outcome (verify_pin_loop fuel username l) w)
             (run (verify_pin_loop fuel username l) w).
Proof.
  intros Hdb. unfold outcome, run, pin_post.
  induction fuel as [|fuel IH]; intros l w budget Hopen Hbudget Hfuel; [lia|].
  cbn [verify_pin_loop].
  destruct (Z.ltb_spec (attempts l) MAX_ATTEMPTS) as [Hlt|Hge].
  2:{ (* the test fails: return False *)
    assert (budget = 0%nat) as -> by lia.
    exists (@nil Event), 0%nat. unfold ret. world_simpl. autorewrite with trace.
    split; [frame_explicit|]. repeat split; auto.
    exists []. split; reflexivity. }
  unfold bind. rewrite (verify_pin_body_open username l w Hopen), Hdb.
  destruct (stdin w) as [|pin rest] eqn:Hin.
  { (* end of input at the prompt *)
    exists [Input prompt_pin None], 0%nat. world_simpl. autorewrite with trace.
    cbn [length repeat map app].
    split; [frame_explicit|]. repeat split; auto; try lia; not_locked. }
  cbv zeta.
  destruct (String.eqb (hash_pin pin) stored) eqn:Hpin.
  { (* the PIN matches *)
    exists [Input prompt_pin (Some pin)], 0%nat. unfold ret. world_simpl.
    autorewrite with trace. cbn [length repeat existsb pin_matches]. rewrite Hpin.
    split; [frame_explicit|]. repeat split; auto; try lia; try not_locked.
    exists [pin]. split; reflexivity. }
  destruct (Z.geb_spec (attempts l + 1) MAX_ATTEMPTS) as [Hlast|Hmore].
  { (* the last attempt allowed *)
    exists [Input prompt_pin (Some pin); Print (msg_incorrect (attempts l + 1));
            Print msg_too_many], 1%nat. unfold ret. world_simpl.
    autorewrite with trace. cbn [length repeat existsb pin_matches]. rewrite Hpin.
    assert (budget = 1%nat) as -> by lia.
    split; [frame_explicit|]. repeat split; auto; try lia; try not_locked.
    exists [pin]. split; reflexivity. }
  (* another turn *)
  set (w2 := emit _ (set_stdin rest _)).
  set (l' := mkLocals (attempts l + 1) None).
  destruct budget as [|budget]; [lia|].
  assert (Hbudget' : budget = Z.to_nat (MAX_ATTEMPTS - attempts l'))
    by (subst l'; cbn [attempts]; lia).
  assert (Hfuel' : (budget < fuel)%nat) by lia.
  specialize (IH l' w2 budget eq_refl Hbudget' Hfuel').
  destruct (verify_pin_loop fuel username l' w2) as [out w'].
  destruct IH as (evs & dc & Hframe & Hfac & Hlen & Hquiet & Hout).
  exists (Input prompt_pin (Some pin) :: Print (msg_incorrect (attempts l + 1)) :: evs), dc.
  assert (Hframe' : frame w w2 [Input prompt_pin (Some pin);
                                Print (msg_incorrect (attempts l + 1))] [] 0 0 0)
    by (subst w2; frame_explicit).
  subst w2. world_simpl. autorewrite with trace.
  cbn [length repeat existsb pin_matches map app]. rewrite Hpin. cbn [orb].
  split; [exact (frame_trans _ _ _ _ _ _ _ _ _ _ _ _ _ Hframe' Hframe)|].
  repeat split; auto; try lia; try not_locked.
  - rewrite Hfac. reflexivity.
  - destruct out as [result|e|]; auto.
    + destruct Hout as (Hres & (pins & Hrep & Hstd) & Hclk). repeat split; auto.
      * exists (pin :: pins). cbn [map app]. rewrite Hrep, Hstd. split; reflexivity.
      * destruct result; auto. destruct Hclk as [Hn Hclk]. split; [lia|].
        rewrite Hclk. destruct budget; [|reflexivity]. exfalso. lia.
    + destruct Hout as (He & Hrep & Hclk). repeat split; auto.
      rewrite Hrep. reflexivity.
Qed.

Lemma verify_pin_spec username stored w :
  dict_find username USER_DB = Some stored ->
  pin_post stored (Z.to_nat MAX_ATTEMPTS) w
           (outcome (verify_pin username) w) (run (verify_pin username) w).
Proof.
  intros Hdb. unfold verify_pin.
  apply (verify_pin_loop_spec username stored Hdb); [reflexivity|reflexivity|lia].
Qed.

(** ** The other stages of a session *)

Lemma start_spec w :
  exists evs,
    frame w (run (banner ;; input prompt_username) w) evs [] 0 0 0 /\
    factors_run evs = [] /\
    match stdin w with
    | [] => outcome (banner ;; input prompt_username) w = Raise EOFError
    | username :: rest =>
        outcome (banner ;; input prompt_username) w = Ok username /\
        stdin (run (banner ;; input prompt_username) w) = rest
    end.
Proof.
  unfold run, outcome, banner, bind, print, input. world_simpl.
  destruct (stdin w) as [|username rest]; world_simpl;
    eexists; (split; [frame_infer|]); repeat split; reflexivity.
Qed.

Lemma simulate_biometric_run w :
  simulate_biometric w =
  let w1 := emit (Sleep (3 # 2)) (emit (Print "🔄 Contacting biometric API...") w) in
  match stdin w with
  | [] => (Raise EOFError, emit (Input prompt_scan None) w1)
  | scan :: rest =>
      let w2 := set_stdin rest (emit (Input prompt_scan (Some scan)) w1) in
      if String.eqb (lower scan) "scan"
      then (Ok true, emit (Print "✅ Biometric scan accepted.") w2)
      else (Ok false, emit (Print "❌ Biometric scan failed.") w2)
  end.
Proof.
  unfold simulate_biometric, bind, print, sleep, input, ret. world_simpl.
  destruct (stdin w) as [|scan rest]; [reflexivity|].
  destruct (String.eqb (lower scan) "scan"); reflexivity.
Qed.

Lemma simulate_biometric_spec w :
  exists evs,
    frame w (run simulate_biometric w) evs [] 0 0 0 /\
    factors_run evs = [Biometric] /\
    match stdin w with
    | [] => outcome simulate_biometric w = Raise EOFError /\
            replies prompt_scan evs = [None]
    | scan :: rest =>
        outcome simulate_biometric w = Ok (String.eqb (lower scan) "scan") /\
        stdin (run simulate_biometric w) = rest /\
        replies prompt_scan evs = [Some scan]
    end.
Proof.
  unfold run, outcome. rewrite simulate_biometric_run. cbv zeta.
  destruct (stdin w) as [|scan rest].
  - eexists. split; [frame_infer|]. repeat split; reflexivity.
  - destruct (String.eqb (lower scan) "scan");
      (eexists; split; [frame_infer|]; repeat split; reflexivity).
Qed.

(** The code that [simulate_otp] generates in [w]. *)
Lemma simulate_otp_run w :
  simulate_otp w =
  let otp := str_int (100000 + rand_src w (rand_draws w) mod 900000) in
  let w1 := emit (Print ("Your OTP is: " ++ otp))
              (emit (Sleep 1) (emit (Print "📡 Sending OTP...") (next_rand w))) in
  match stdin w with
  | [] => (Raise EOFError, emit (Input prompt_otp None) w1)
  | entered :: rest =>
      let w2 := set_stdin rest (emit (Input prompt_otp (Some entered)) w1) in
      if String.eqb entered otp
      then (Ok true, emit (Print "✅ MFA verified.") w2)
      else (Ok false, emit (Print "❌ MFA failed.") w2)
  end.
Proof.
  unfold simulate_otp, bind, print, sleep, input, ret, randint. world_simpl.
  change (999999 - 100000 + 1) with 900000.
  destruct (stdin w) as [|entered rest]; [reflexivity|].
  match goal with
  | |- context [String.eqb entered ?o] => destruct (String.eqb entered o)
  end; reflexivity.
Qed.

Lemma simulate_otp_spec w :
  exists evs,
    frame w (run simulate_otp w) evs [] 0 1 0 /\
    factors_run evs = [Otp] /\
    match stdin w with
    | [] => outcome simulate_otp w = Raise EOFError /\
            replies prompt_otp evs = [None]
    | entered :: rest =>
        outcome simulate_otp w =
          Ok (String.eqb entered
                (str_int (100000 + rand_src w (rand_draws w) mod 900000))) /\
        stdin (run simulate_otp w) = rest /\
        replies prompt_otp evs = [Some entered]
    end.
Proof.
  unfold run, outcome. rewrite simulate_otp_run. cbv zeta.
  destruct (stdin w) as [|entered rest].
  - eexists. split; [frame_infer|]. repeat split; reflexivity.
  - match goal with
    | |- context [String.eqb entered ?o] => destruct (String.eqb entered o)
    end; (eexists; split; [frame_infer|]; repeat split; reflexivity).
Qed.

Lemma log_audit_run username role success token w :
  log_audit username role success token w =
  let entry := audit_entry username role success
                 (strftime (local (clock_src w (clock_reads w)))) token in
  (Ok tt, append_log (entry ++ nl) (emit (Print entry) (tick w))).
Proof. reflexivity. Qed.

Lemma forensic_is_not_audit status evidence_id note :
  is_audit status
    (("[FORENSIC] Evidence ID: " ++ evidence_id ++ ", Note: " ++ note) ++ nl) = false.
Proof. reflexivity. Qed.

Lemma route_to_module_spec role w :
  exists evs forensic,
    frame w (run (route_to_module role) w) evs forensic 0 0 0 /\
    factors_run evs = [] /\
    filter (is_audit "") forensic = [] /\
    (outcome (route_to_module role) w = Ok tt \/
     outcome (route_to_module role) w = Raise EOFError /\ forensic = []).
Proof.
  unfold run, outcome, route_to_module.
  destruct (String.eqb role "Admin").
  { unfold bind, print. eexists _, []. split; [frame_infer|].
    repeat split; auto. }
  destruct (String.eqb role "Analyst").
  { unfold forensic_module, bind, print, input, log_to_file. world_simpl.
    destruct (stdin w) as [|evidence_id [|note rest]]; world_simpl.
    - eexists _, []. split; [frame_infer|]. repeat split; auto.
    - eexists _, []. split; [frame_infer|]. repeat split; auto.
    - eexists _, [_]. split; [frame_infer|]. repeat split; auto. }
  destruct (String.eqb role "Guest").
  { unfold bind, print. eexists _, []. split; [frame_infer|].
    repeat split; auto. }
  unfold print. eexists _, []. split; [frame_infer|]. repeat split; auto.
Qed.

(** ** A whole session *)

Lemma dict_mem_find k d :
  dict_mem k d = true -> exists v, dict_find k d = Some v.
Proof.
  unfold dict_mem. destruct (dict_find k d) as [v|]; [eauto|discriminate].
Qed.

(** Every principal of [USER_DB] has a role. *)
Lemma known_user_has_role username :
  dict_mem username USER_DB = true ->
  exists role, dict_find username USER_ROLES = Some role.
Proof.
  unfold dict_mem, USER_DB, USER_ROLES. cbn [dict_find].
  destruct (String.eqb username "admin"); [eauto|].
  destruct (String.eqb username "analyst"); [eauto|].
  destruct (String.eqb username "guest"); [eauto|discriminate].
Qed.

Lemma grant_access_run username role w :
  dict_find username USER_ROLES = Some role ->
  grant_access username w =
  let token := str_uuid (nth_uuid w (uuid_draws w)) in
  let entry := audit_entry username role true
                 (strftime (local (clock_src w (clock_reads w)))) token in
  route_to_module role
    (emit (Print ("Role: " ++ role))
       (emit (Print ("Session Token: " ++ token))
          (emit (Print "✅ Access granted.")
             (append_log (entry ++ nl) (emit (Print entry) (tick (next_uuid w))))))).
Proof.
  intros Hrole. unfold grant_access, dict_get, bind. rewrite Hrole. reflexivity.
Qed.

Lemma grant_access_spec username role w :
  dict_find username USER_ROLES = Some role ->
  exists evs forensic,
    frame w (run (grant_access username) w) evs
      ((audit_entry username role true
          (strftime (local (clock_src w (clock_reads w))))
          (str_uuid (nth_uuid w (uuid_draws w))) ++ nl)%string :: forensic) 1 0 1 /\
    factors_run evs = [] /\
    filter (is_audit "") forensic = [] /\
    (outcome (grant_access username) w = Ok tt \/
     outcome (grant_access username) w = Raise EOFError).
Proof.
  intros Hrole. unfold run, outcome.
  rewrite (grant_access_run username role w Hrole). cbv zeta.
  match goal with
  | |- context [route_to_module role ?w1] =>
      set (w4 := w1);
      destruct (route_to_module_spec role w4) as (evs & forensic & F & Hf & Ha & Hout)
  end.
  assert (F0 : frame w w4
                 [Print (audit_entry username role true
                           (strftime (local (clock_src w (clock_reads w))))
                           (str_uuid (nth_uuid w (uuid_draws w))));
                  Print "✅ Access granted.";
                  Print ("Session Token: " ++ str_uuid (nth_uuid w (uuid_draws w)));
                  Print ("Role: " ++ role)]
                 [(audit_entry username role true
                     (strftime (local (clock_src w (clock_reads w))))
                     (str_uuid (nth_uuid w (uuid_draws w))) ++ nl)%string] 1 0 1)
    by (subst w4; frame_explicit).
  unfold run, outcome in *.
  destruct (route_to_module role w4) as [out w5]. cbn [fst snd] in *.
  eexists _, forensic. split.
  - exact (frame_trans _ _ _ _ _ _ _ _ _ _ _ _ _ F0 F).
  - rewrite factors_run_app, Hf. repeat split; auto.
    destruct Hout as [Hout|[Hout _]]; auto.
Qed.

Lemma main_unfold w :
  main w =
  match (banner ;; input prompt_username) w with
  | (Ok username, w1) =>
      if negb (dict_mem username USER_DB) then print "🚫 Unknown user." w1
      else
        match verify_pin username w1 with
        | (Ok pin_ok, w2) =>
            if negb pin_ok then (Ok tt, w2)
            else
              match simulate_biometric w2 with
              | (Ok scan_ok, w3) =>
                  if negb scan_ok then (Ok tt, w3)
                  else
                    match simulate_otp w3 with
                    | (Ok otp_ok, w4) =>
                        if negb otp_ok then (Ok tt, w4)
                        else grant_access username w4
                    | (Raise e, w4) => (Raise e, w4)
                    | (OutOfFuel, w4) => (OutOfFuel, w4)
                    end
              | (Raise e, w3) => (Raise e, w3)
              | (OutOfFuel, w3) => (OutOfFuel, w3)
              end
        | (Raise e, w2) => (Raise e, w2)
        | (OutOfFuel, w2) => (OutOfFuel, w2)
        end
  | (Raise e, w1) => (Raise e, w1)
  | (OutOfFuel, w1) => (OutOfFuel, w1)
  end.
Proof.
  unfold main, grant_access, bind.
  destruct (banner w) as [[[]| |] w0]; try reflexivity.
  destruct (input prompt_username w0) as [[username| |] w1]; try reflexivity.
  destruct (dict_mem username USER_DB); cbn [negb]; [|reflexivity].
  destruct (verify_pin username w1) as [[[|]| |] w2]; try reflexivity.
  cbn [negb].
  destruct (simulate_biometric w2) as [[[|]| |] w3]; try reflexivity.
  cbn [negb].
  destruct (simulate_otp w3) as [[[|]| |] w4]; reflexivity.
Qed.

Lemma nth_uuid_frame w w' evs chunks dc dr du n :
  frame w w' evs chunks dc dr du -> nth_uuid w' n = nth_uuid w n.
Proof. intros F. unfold nth_uuid. rewrite (fr_uuid_src _ _ _ _ _ _ _ F). reflexivity. Qed.

(** The effect of one session, by the way it ends. *)
Lemma main_spec w :
  exists evs chunks dc dr du,
    frame w (run main w) evs chunks dc dr du /\
    session_post w (session_verdict w) (outcome main w) evs chunks dc dr du.
Proof.
  unfold run, outcome, session_verdict, session_post. rewrite main_unfold.
  destruct (start_spec w) as (e0 & F0 & Hf0 & H0). unfold run, outcome in F0, H0.
  destruct ((banner ;; input prompt_username) w) as [out0 w1]. cbn [fst snd] in F0, H0.
  assert (Hout0 : out0 = Raise EOFError \/ exists username, out0 = Ok username).
  { destruct (stdin w); [left; exact H0 | right; eexists; apply H0]. }
  clear H0. destruct Hout0 as [-> | [username ->]].
  { (* standard input ends at the first prompt *)
    exists e0, [], 0%nat, 0%nat, 0%nat. cbn [fst snd]. split; [exact F0|].
    exists 0%nat, 0%nat, 0%nat. rewrite Hf0. repeat split; auto; lia. }
  destruct (dict_mem username USER_DB) eqn:Hmem; cbn [negb].
  2:{ (* unknown principal *)
    unfold print. cbn [fst snd].
    assert (Fu : frame w1 (emit (Print "🚫 Unknown user.") w1)
                   [Print "🚫 Unknown user."] [] 0 0 0) by frame_explicit.
    eexists _, _, _, _, _. split.
    - exact (frame_trans _ _ _ _ _ _ _ _ _ _ _ _ _ F0 Fu).
    - exists 0%nat, 0%nat, 0%nat. rewrite factors_run_app, Hf0.
      repeat split; auto; lia. }
  destruct (dict_mem_find _ _ Hmem) as [stored Hdb].
  pose proof (verify_pin_spec username stored w1 Hdb) as H1.
  unfold run, outcome, pin_post in H1.
  destruct (verify_pin username w1) as [out1 w2]. cbn [fst snd] in H1.
  destruct H1 as (e1 & dc1 & F1 & Hf1 & Hk & _ & H1).
  set (k := length (replies prompt_pin e1)) in *.
  destruct out1 as [[|]|e|]; [| | |contradiction]; cbn [negb fst snd].
  3:{ (* standard input ends at a PIN prompt *)
    destruct H1 as (-> & Hrep & ->).
    eexists _, _, _, _, _. split.
    - eapply frame_trans; [exact F0|exact F1].
    - exists k, 0%nat, 0%nat. rewrite factors_run_app, Hf0, Hf1.
      cbn [app repeat Nat.add]. rewrite app_nil_r.
      repeat split; auto; lia. }
  2:{ (* the PIN is refused *)
    destruct H1 as (_ & _ & Hall & ->).
    eexists _, _, _, _, _. split.
    - eapply frame_trans; [exact F0|exact F1].
    - exists k, 0%nat, 0%nat. rewrite factors_run_app, Hf0, Hf1.
      cbn [app repeat Nat.add]. rewrite app_nil_r.
      repeat split; auto; lia. }
  (* the PIN is accepted *)
  destruct H1 as (Hres & (pins & Hrep & _) & ->).
  assert (Hk1 : (1 <= k)%nat).
  { subst k. destruct (replies prompt_pin e1); [discriminate Hres|cbn; lia]. }
  destruct (simulate_biometric_spec w2) as (e2 & F2 & Hf2 & H2).
  unfold run, outcome in F2, H2.
  destruct (simulate_biometric w2) as [out2 w3]. cbn [fst snd] in F2, H2.
  assert (Hout2 : out2 = Raise EOFError \/ exists scan_ok, out2 = Ok scan_ok).
  { destruct (stdin w2); [left; apply H2 | right; eexists; apply H2]. }
  clear H2. destruct Hout2 as [-> | [[|] ->]]; cbn [negb fst snd].
  1,3:
    (eexists _, _, _, _, _; split;
     [ eapply frame_trans; [exact F0|]; eapply frame_trans; [exact F1|exact F2]
     | exists k, 1%nat, 0%nat; rewrite !factors_run_app, Hf0, Hf1, Hf2;
       cbn [app repeat Nat.add]; repeat split; auto; lia ]).
  (* the scan is accepted *)
  destruct (simulate_otp_spec w3) as (e3 & F3 & Hf3 & H3).
  unfold run, outcome in F3, H3.
  destruct (simulate_otp w3) as [out3 w4]. cbn [fst snd] in F3, H3.
  assert (Hout3 : out3 = Raise EOFError \/ exists otp_ok, out3 = Ok otp_ok).
  { destruct (stdin w3); [left; apply H3 | right; eexists; apply H3]. }
  clear H3. destruct Hout3 as [-> | [[|] ->]]; cbn [negb fst snd].
  1,3:
    (eexists _, _, _, _, _; split;
     [ eapply frame_trans; [exact F0|]; eapply frame_trans; [exact F1|];
       eapply frame_trans; [exact F2|exact F3]
     | exists k, 1%nat, 1%nat; rewrite !factors_run_app, Hf0, Hf1, Hf2, Hf3;
       cbn [app repeat Nat.add]; repeat split; auto; lia ]).
  (* the code is right: access is granted *)
  destruct (known_user_has_role _ Hmem) as [role Hrole].
  destruct (grant_access_spec username role w4 Hrole) as (e4 & forensic & F4 & Hf4 & Ha & H4).
  unfold run, outcome in F4, H4.
  destruct (grant_access username w4) as [out4 w5]. cbn [fst snd] in F4, H4.
  assert (F04 : frame w w4 (e0 ++ e1 ++ e2 ++ e3) [] 0 1 0).
  { exact (frame_trans _ _ _ _ _ _ _ _ _ _ _ _ _ F0
             (frame_trans _ _ _ _ _ _ _ _ _ _ _ _ _ F1
                (frame_trans _ _ _ _ _ _ _ _ _ _ _ _ _ F2 F3))). }
  rewrite (nth_uuid_frame _ _ _ _ _ _ _ (uuid_draws w4) F04) in F4.
  rewrite (fr_clock_src _ _ _ _ _ _ _ F04), (fr_clock _ _ _ _ _ _ _ F04),
    (fr_uuid _ _ _ _ _ _ _ F04), !Nat.add_0_r in F4.
  eexists _, _, _, _, _. split.
  - eapply frame_trans; [exact F04|exact F4].
  - exists k, 1%nat, 1%nat. rewrite !factors_run_app, Hf0, Hf1, Hf2, Hf3, Hf4.
    cbn [app repeat Nat.add fst]. rewrite app_nil_r. repeat split; auto; try lia.
    exists role, forensic. repeat split; auto.
Qed.

(** Every way to end does occur. *)
Example every_verdict_occurs :
  session_verdict (demo_world ["ghost"]) = UnknownPrincipal /\
  session_verdict (demo_world ["admin"; "0000"; "1111"; "2222"]) = SecretFailed /\
  session_verdict (demo_world ["guest"; "1234"; "no"]) = BiometricFailed /\
  session_verdict (demo_world ["admin"; "4269"; "scan"; "000000"]) = OtpFailed /\
  session_verdict (demo_world ["analyst"; "3141"; "Scan"; "123456"]) =
    Granted "analyst" /\
  session_verdict (demo_world ["admin"; "4269"]) = Aborted.
Proof.
  repeat match goal with |- _ /\ _ => split end; vm_compute; reflexivity.
Qed.

(** ** Text of timestamps and tokens *)

Lemma length_append (a b : string) :
  String.length (a ++ b) = (String.length a + String.length b)%nat.
Proof. induction a as [|c a IH]; cbn; [reflexivity|]. rewrite IH. reflexivity. Qed.

Lemma append_assoc (a b c : string) : ((a ++ b) ++ c = a ++ (b ++ c))%string.
Proof. induction a as [|x a IH]; cbn; [reflexivity|]. rewrite IH. reflexivity. Qed.

(** Texts of equal length that are prefixes of one text are equal. *)
Lemma append_inj (a a' b b' : string) :
  String.length a = String.length a' ->
  (a ++ b = a' ++ b')%string -> a = a' /\ b = b'.
Proof.
  revert a'. induction a as [|c a IH]; intros [|c' a'] Hlen Heq;
    try discriminate Hlen.
  - split; [reflexivity|exact Heq].
  - cbn in Heq. injection Heq as -> Heq. injection Hlen as Hlen.
    destruct (IH a' Hlen Heq) as [-> ->]. split; reflexivity.
Qed.

Lemma no_newline_append (a b : string) :
  no_newline (a ++ b) = no_newline a && no_newline b.
Proof.
  induction a as [|c a IH]; cbn; [reflexivity|].
  rewrite IH. apply andb_assoc.
Qed.

Ltac each_digit d :=
  assert (d = 0 \/ d = 1 \/ d = 2 \/ d = 3 \/ d = 4 \/ d = 5 \/ d = 6 \/ d = 7 \/
          d = 8 \/ d = 9 \/ d = 10 \/ d = 11 \/ d = 12 \/ d = 13 \/ d = 14 \/
          d = 15) as Hcase by lia;
  repeat (destruct Hcase as [->|Hcase]); [..|subst d].

Lemma hex_val_char d : 0 <= d < 16 -> hex_val (hex_char d) = d.
Proof. intros H. each_digit d; reflexivity. Qed.

Lemma hex_char_no_newline d : 0 <= d < 16 -> Ascii.eqb (hex_char d) LF = false.
Proof. intros H. each_digit d; reflexivity. Qed.

Lemma hex_digits_length n z : String.length (hex_digits n z) = n.
Proof.
  revert z. induction n as [|n IH]; intros z; cbn [hex_digits]; [reflexivity|].
  rewrite length_append, IH. cbn. lia.
Qed.

Lemma hex_digits_no_newline n z : no_newline (hex_digits n z) = true.
Proof.
  revert z. induction n as [|n IH]; intros z; cbn [hex_digits]; [reflexivity|].
  rewrite no_newline_append, IH. cbn [no_newline].
  rewrite hex_char_no_newline by (apply Z.mod_pos_bound; lia). reflexivity.
Qed.

Lemma unhex_append acc a b : unhex acc (a ++ b) = unhex (unhex acc a) b.
Proof.
  revert acc. induction a as [|c a IH]; intros acc; cbn; [reflexivity|]. apply IH.
Qed.

Lemma unhex_hex_digits n z acc :
  unhex acc (hex_digits n z) = acc * 16 ^ Z.of_nat n + z mod 16 ^ Z.of_nat n.
Proof.
  revert z acc. induction n as [|n IH]; intros z acc.
  - cbn [hex_digits unhex]. change (16 ^ Z.of_nat 0) with 1.
    rewrite Z.mod_1_r. lia.
  - cbn [hex_digits]. rewrite unhex_append, IH. cbn [unhex].
    rewrite hex_val_char by (apply Z.mod_pos_bound; lia).
    rewrite Nat2Z.inj_succ, Z.pow_succ_r by lia.
    rewrite (Z.rem_mul_r z 16 (16 ^ Z.of_nat n)) by lia. lia.
Qed.

(** The digits determine the number they were made from. *)
Lemma hex_digits_inj n a b :
  hex_digits n a = hex_digits n b -> a mod 16 ^ Z.of_nat n = b mod 16 ^ Z.of_nat n.
Proof.
  intros H. pose proof (unhex_hex_digits n a 0) as Ha.
  rewrite H, unhex_hex_digits in Ha. lia.
Qed.

Lemma append_cancel_l (p a b : string) : (p ++ a = p ++ b)%string -> a = b.
Proof.
  induction p as [|c p IH]; cbn [String.append]; intros H; [exact H|].
  injection H as H. exact (IH H).
Qed.

Lemma str_uuid_groups u v :
  str_uuid u = str_uuid v ->
  (u / 2 ^ 96) mod 16 ^ 8 = (v / 2 ^ 96) mod 16 ^ 8 /\
  (u / 2 ^ 80) mod 16 ^ 4 = (v / 2 ^ 80) mod 16 ^ 4 /\
  (u / 2 ^ 64) mod 16 ^ 4 = (v / 2 ^ 64) mod 16 ^ 4 /\
  (u / 2 ^ 48) mod 16 ^ 4 = (v / 2 ^ 48) mod 16 ^ 4 /\
  u mod 16 ^ 12 = v mod 16 ^ 12.
Proof.
  unfold str_uuid. intros H.
  apply append_inj in H; [|rewrite !hex_digits_length; reflexivity].
  destruct H as [H1 H]. apply append_cancel_l in H.
  apply append_inj in H; [|rewrite !hex_digits_length; reflexivity].
  destruct H as [H2 H]. apply append_cancel_l in H.
  apply append_inj in H; [|rewrite !hex_digits_length; reflexivity].
  destruct H as [H3 H]. apply append_cancel_l in H.
  apply append_inj in H; [|rewrite !hex_digits_length; reflexivity].
  destruct H as [H4 H]. apply append_cancel_l in H.
  apply hex_digits_inj in H1, H2, H3, H4, H. auto.
Qed.

(** [str] is injective on 128-bit values. *)
Lemma str_uuid_inj u v :
  0 <= u < 2 ^ 128 -> 0 <= v < 2 ^ 128 -> str_uuid u = str_uuid v -> u = v.
Proof.
  intros Hu Hv H. apply str_uuid_groups in H.
  destruct H as (H1 & H2 & H3 & H4 & H5).
  change (16 ^ 8) with (2 ^ 32) in H1. change (16 ^ 4) with (2 ^ 16) in H2, H3, H4.
  change (16 ^ 12) with (2 ^ 48) in H5.
  change (2 ^ 128) with 340282366920938463463374607431768211456 in *.
  change (2 ^ 96) with 79228162514264337593543950336 in *.
  change (2 ^ 80) with 1208925819614629174706176 in *.
  change (2 ^ 64) with 18446744073709551616 in *.
  change (2 ^ 48) with 281474976710656 in *.
  change (2 ^ 32) with 4294967296 in *.
  change (2 ^ 16) with 65536 in *.
  Z.div_mod_to_equations. lia.
Qed.

Lemma below_pow2 x n :
  0 <= n -> 0 <= x -> (forall i, n <= i -> Z.testbit x i = false) -> x < 2 ^ n.
Proof.
  intros Hn Hx Hbits.
  assert (Heq : x mod 2 ^ n = x).
  { apply Z.bits_inj'. intros i Hi.
    destruct (Z.lt_ge_cases i n) as [Hlt|Hge].
    - apply Z.mod_pow2_bits_low. lia.
    - rewrite Z.mod_pow2_bits_high by lia. symmetry. apply Hbits. exact Hge. }
  rewrite <- Heq. apply Z.mod_pos_bound. apply Z.pow_pos_nonneg; lia.
Qed.

(** A UUID is a 128-bit value. *)
Lemma uuid4_range r : 0 <= uuid4_of_bits r < 2 ^ 128.
Proof.
  unfold uuid4_of_bits.
  assert (H0 : 0 <= r mod 2 ^ 128 < 2 ^ 128) by (apply Z.mod_pos_bound; reflexivity).
  set (i := r mod 2 ^ 128) in *.
  assert (Hnn : 0 <= Z.lor (Z.ldiff (Z.lor (Z.ldiff i (Z.shiftl 49152 48))
                                            (Z.shiftl 32768 48))
                                     (Z.shiftl 61440 64)) (Z.shiftl 4 76)).
  { apply Z.lor_nonneg. split; [|apply Z.shiftl_nonneg; lia].
    apply Z.ldiff_nonneg. left. apply Z.lor_nonneg.
    split; [|apply Z.shiftl_nonneg; lia].
    apply Z.ldiff_nonneg. left. lia. }
  split; [exact Hnn|].
  apply below_pow2; [lia|exact Hnn|].
  intros n Hn.
  rewrite Z.lor_spec, Z.ldiff_spec, Z.lor_spec, Z.ldiff_spec.
  rewrite !Z.shiftl_spec by lia.
  assert (Hi : Z.testbit i n = false).
  { subst i. apply Z.mod_pow2_bits_high. lia. }
  rewrite Hi.
  rewrite (Z.bits_above_log2 32768 (n - 48)) by (cbn; lia).
  rewrite (Z.bits_above_log2 4 (n - 76)) by (cbn; lia).
  reflexivity.
Qed.

Lemma nth_uuid_range w n : 0 <= nth_uuid w n < 2 ^ 128.
Proof. apply uuid4_range. Qed.

(** Decimal digits. *)
Lemma string_of_uint_no_newline (d : Decimal.uint) :
  no_newline (NilEmpty.string_of_uint d) = true.
Proof. induction d; cbn; auto. Qed.

Lemma dec_no_newline n : no_newline (dec n) = true.
Proof.
  unfold dec, NilZero.string_of_uint.
  destruct (Nat.to_uint n); try reflexivity; apply string_of_uint_no_newline.
Qed.

Lemma zeros_no_newline n : no_newline (zeros n) = true.
Proof. induction n as [|n IH]; cbn; auto. Qed.

Lemma pad_no_newline width n : no_newline (pad width n) = true.
Proof.
  unfold pad. rewrite no_newline_append, zeros_no_newline, dec_no_newline.
  reflexivity.
Qed.

Lemma strftime_no_newline d : no_newline (strftime d) = true.
Proof.
  unfold strftime. rewrite !no_newline_append, !pad_no_newline. reflexivity.
Qed.

Lemma str_uuid_no_newline u : no_newline (str_uuid u) = true.
Proof.
  unfold str_uuid. rewrite !no_newline_append, !hex_digits_no_newline. reflexivity.
Qed.

(** * The claims *)

(** ** The biometric factor *)

Lemma lower_char_inv (c : ascii) (x : ascii) :
  In x ["s"; "c"; "a"; "n"]%char ->
  lower_char c = x -> c = x \/ lower_char x = x /\ c = ascii_of_nat (nat_of_ascii x - 32).
Proof.
  intros Hx Hc. cbn [In] in Hx.
  destruct Hx as [<-|[<-|[<-|[<-|[]]]]];
    destruct c as [[] [] [] [] [] [] [] []]; try discriminate Hc;
    first [left; reflexivity | right; split; reflexivity].
Qed.

Lemma lower_scan_spellings (s : string) :
  lower s = "scan" <-> In s scan_spellings.
Proof.
  split.
  - destruct s as [|c1 [|c2 [|c3 [|c4 [|c5 r]]]]]; try discriminate.
    cbn [lower]. intros H. injection H as H1 H2 H3 H4.
    apply lower_char_inv in H1; [|cbn; auto].
    apply lower_char_inv in H2; [|cbn; auto].
    apply lower_char_inv in H3; [|cbn; auto].
    apply lower_char_inv in H4; [|cbn; auto].
    destruct H1 as [->|[_ ->]], H2 as [->|[_ ->]], H3 as [->|[_ ->]],
      H4 as [->|[_ ->]]; vm_compute; tauto.
  - unfold scan_spellings. cbn [In]. intros H.
    repeat (destruct H as [<-|H]; [reflexivity|]). contradiction.
Qed.

(** C10.  The biometric factor compares the lowered capture text with
    "scan": for every text typed at its prompt it returns True (accepted)
    exactly when the lower-case form of the text is "scan", that is for
    "scan" written in any mix of upper and lower case ("SCAN", "Scan",
    ...), and False (rejected) for every other text. *)
Theorem biometric_is_case_insensitive (w : World) (scan : string)
    (rest : list string) :
  stdin w = scan :: rest ->
  (lower scan = "scan" -> outcome simulate_biometric w = Ok true) /\
  (lower scan <> "scan" -> outcome simulate_biometric w = Ok false) /\
  (lower scan = "scan" <-> In scan scan_spellings) /\
  lower "SCAN" = "scan" /\ lower "Scan" = "scan".
Proof.
  intros Hin. destruct (simulate_biometric_spec w) as (evs & _ & _ & H).
  rewrite Hin in H. destruct H as (Hout & _). rewrite Hout.
  split; [|split; [|split; [|split]]]; try reflexivity.
  - intros ->. reflexivity.
  - intros Hne.
    destruct (String.eqb_spec (lower scan) "scan"); [contradiction|reflexivity].
  - apply lower_scan_spellings.
Qed.

Lemma biometric_is_case_insensitive_witness :
  outcome simulate_biometric (demo_world ["SCAN"]) = Ok true /\
  outcome simulate_biometric (demo_world ["scam"]) = Ok false.
Proof.
  split.
  - apply (biometric_is_case_insensitive (demo_world ["SCAN"]) "SCAN" []);
      reflexivity.
  - apply (biometric_is_case_insensitive (demo_world ["scam"]) "scam" []);
      [reflexivity|]. vm_compute. discriminate.
Defined.

(** ** The OTP factor *)

(** C7.  The OTP factor draws one fresh six-digit code, asks for it
    once, and answers from that single reply: True exactly when the text
    entered equals the decimal text of the code, False otherwise.  It
    shows one prompt and takes one line of input; and no session shows
    the OTP prompt more than once. *)
Theorem otp_is_one_attempt (w : World) (entered : string) (rest : list string) :
  stdin w = entered :: rest ->
  let code := 100000 + rand_src w (rand_draws w) mod 900000 in
  100000 <= code <= 999999 /\
  (entered = str_int code -> outcome simulate_otp w = Ok true) /\
  (entered <> str_int code -> outcome simulate_otp w = Ok false) /\
  (exists evs,
      frame w (run simulate_otp w) evs [] 0 1 0 /\
      factors_run evs = [Otp] /\
      replies prompt_otp evs = [Some entered]) /\
  stdin (run simulate_otp w) = rest /\
  (forall w0 : World,
      exists evs k b o,
        terminal (run main w0) = terminal w0 ++ evs /\
        factors_run evs = repeat Secret k ++ repeat Biometric b ++ repeat Otp o /\
        (o <= 1)%nat).
Proof.
  intros Hin code.
  destruct (simulate_otp_spec w) as (evs & F & Hf & H).
  rewrite Hin in H. destruct H as (Hout & Hrest & Hrep). fold code in Hout.
  split; [|split; [|split; [|split; [|split]]]].
  - subst code. pose proof (Z.mod_pos_bound (rand_src w (rand_draws w)) 900000).
    lia.
  - intros ->. rewrite Hout, String.eqb_refl. reflexivity.
  - intros Hne. rewrite Hout.
    destruct (String.eqb_spec entered (str_int code)); [contradiction|reflexivity].
  - exists evs. auto.
  - exact Hrest.
  - intros w0.
    destruct (main_spec w0) as (evs0 & chunks & dc & dr & du & F0 & k & b & o & Hshape & _ & Hob & Hb & _).
    exists evs0, k, b, o. repeat split; [apply F0|exact Hshape|lia].
Qed.

Lemma otp_is_one_attempt_witness :
  outcome simulate_otp (demo_world ["123456"]) = Ok true /\
  outcome simulate_otp (demo_world ["123457"; "123456"]) = Ok false.
Proof.
  split.
  - apply (otp_is_one_attempt (demo_world ["123456"]) "123456" []); reflexivity.
  - apply (otp_is_one_attempt (demo_world ["123457"; "123456"]) "123457" ["123456"]);
      [reflexivity|]. vm_compute. discriminate.
Defined.

(** ** The secret factor *)

(** C9.  In a call of [verify_pin] for a principal of the credential
    store, no lockout is recorded at any loop head, so the test of the
    lockout branch is false there without the clock being read and the
    "Account locked" message of that branch is never printed; the call
    asks for at most [MAX_ATTEMPTS] PINs; when input lasts it returns, and
    its result is True exactly when one of the PINs asked for hashes to
    the stored digest.  The clock is read (to record the lockout start)
    only on the way out after the last refused attempt. *)
Theorem verify_pin_never_locks_out (username stored : string) (w : World) :
  dict_find username USER_DB = Some stored ->
  (forall l w1, loop_head username w l w1 ->
     lockout_start l = None /\ locked_out l w1 = (Ok false, w1)) /\
  (exists evs dc,
     frame w (run (verify_pin username) w) evs [] dc 0 0 /\
     ~ In (Print msg_locked) evs /\
     (length (replies prompt_pin evs) <= Z.to_nat MAX_ATTEMPTS)%nat /\
     match outcome (verify_pin username) w with
     | Ok result =>
         result = existsb (pin_matches stored) (replies prompt_pin evs) /\
         dc = (if result then 0 else 1)%nat
     | Raise e =>
         e = EOFError /\ dc = 0%nat /\
         replies prompt_pin evs = map Some (stdin w) ++ [None]
     | OutOfFuel => False
     end) /\
  ((Z.to_nat MAX_ATTEMPTS <= length (stdin w))%nat ->
   exists result, outcome (verify_pin username) w = Ok result).
Proof.
  intros Hdb. pose proof (verify_pin_spec username stored w Hdb) as H.
  unfold pin_post in H.
  destruct H as (evs & dc & F & _ & Hlen & Hquiet & Hout).
  split; [|split].
  - intros l w1 Hhead. pose proof (loop_head_open _ _ _ _ Hhead) as Hopen.
    split; [exact Hopen|]. apply locked_out_open. exact Hopen.
  - exists evs, dc. split; [exact F|]. split; [exact Hquiet|]. split; [exact Hlen|].
    destruct (outcome (verify_pin username) w) as [result|e|]; auto.
    + destruct Hout as (Hres & _ & Hdc). split; [exact Hres|].
      destruct result; [exact Hdc|]. destruct Hdc as [_ ->]. reflexivity.
    + destruct Hout as (He & Hrep & Hdc). auto.
  - intros Henough.
    destruct (outcome (verify_pin username) w) as [result|e|];
      [eauto| |contradiction].
    destruct Hout as (_ & Hrep & _). exfalso.
    rewrite Hrep, length_app, length_map in Hlen. cbn [length] in Hlen. lia.
Qed.

Lemma verify_pin_never_locks_out_witness :
  exists result,
    outcome (verify_pin "admin") (demo_world ["0000"; "1111"; "4269"]) = Ok result.
Proof.
  apply (verify_pin_never_locks_out "admin" (SHA256.hexdigest "4269")
           (demo_world ["0000"; "1111"; "4269"]) eq_refl).
  vm_compute. lia.
Defined.

(** ** The order of the factors *)

Lemma Forall_repeat {A} (P : A -> Prop) (x : A) (n : nat) :
  P x -> Forall P (repeat x n).
Proof. intros H. induction n; cbn; constructor; auto. Qed.

Lemma sorted_blocks k b o :
  StronglySorted factor_le
    (repeat Secret k ++ repeat Biometric b ++ repeat Otp o).
Proof.
  induction k as [|k IHk]; cbn [repeat app].
  - induction b as [|b IHb]; cbn [repeat app].
    + induction o as [|o IHo]; cbn [repeat]; constructor; auto.
      apply Forall_repeat. unfold factor_le. cbn. lia.
    + constructor; [exact IHb|].
      apply Forall_app. split; apply Forall_repeat; unfold factor_le; cbn; lia.
  - constructor; [exact IHk|].
    apply Forall_forall. intros f _. unfold factor_le. cbn. lia.
Qed.

Lemma repeat_app_not_in {A} (x y z a : A) k b :
  a <> x -> a <> y -> ~ In a (repeat x k ++ repeat y b).
Proof.
  intros Hx Hy Hin. apply in_app_or in Hin.
  destruct Hin as [Hin|Hin]; apply repeat_spec in Hin; congruence.
Qed.

(** C5.  In every session the factor prompts appear in the order secret,
    biometric, OTP.  When the secret fails, neither the biometric nor the
    OTP factor is called; when the biometric scan is rejected, the OTP
    factor is not called and no OTP is generated; the OTP factor is
    called only after an accepted scan, and the scan only after an
    accepted PIN. *)
Theorem factors_run_in_order_and_fail_fast (w : World) :
  exists evs,
    terminal (run main w) = terminal w ++ evs /\
    StronglySorted factor_le (factors_run evs) /\
    match session_verdict w with
    | UnknownPrincipal =>
        factors_run evs = [] /\ rand_draws (run main w) = rand_draws w
    | SecretFailed =>
        factors_run evs = repeat Secret (Z.to_nat MAX_ATTEMPTS) /\
        rand_draws (run main w) = rand_draws w
    | BiometricFailed =>
        (exists k, (1 <= k <= Z.to_nat MAX_ATTEMPTS)%nat /\
                   factors_run evs = repeat Secret k ++ [Biometric]) /\
        ~ In Otp (factors_run evs) /\
        rand_draws (run main w) = rand_draws w
    | OtpFailed | Granted _ =>
        exists k, (1 <= k <= Z.to_nat MAX_ATTEMPTS)%nat /\
                  factors_run evs = repeat Secret k ++ [Biometric; Otp]
    | Aborted =>
        exists k b o,
          factors_run evs =
            repeat Secret k ++ repeat Biometric b ++ repeat Otp o /\
          (o <= b)%nat /\ (b <= 1)%nat /\ (b <= k)%nat
    end.
Proof.
  destruct (main_spec w) as (evs & chunks & dc & dr & du & F & k & b & o & Hshape & Hk & Hob & Hb & Hbk & Hdr & Hv).
  exists evs. split; [apply F|]. split; [rewrite Hshape; apply sorted_blocks|].
  pose proof (fr_rand _ _ _ _ _ _ _ F) as Hrand. rewrite Hshape.
  destruct (session_verdict w).
  - destruct Hv as (-> & _). assert (b = 0%nat) as -> by lia.
    assert (o = 0%nat) as -> by lia. split; [reflexivity|lia].
  - destruct Hv as (-> & -> & _). assert (o = 0%nat) as -> by lia.
    split; [rewrite app_nil_r; reflexivity|lia].
  - destruct Hv as (-> & -> & _). split; [|split].
    + exists k. split; [lia|reflexivity].
    + cbn [repeat]. rewrite app_nil_r. change [Biometric] with (repeat Biometric 1).
      apply (repeat_app_not_in Secret Biometric Otp); discriminate.
    + lia.
  - destruct Hv as (-> & _). assert (b = 1%nat) as -> by lia.
    exists k. split; [lia|reflexivity].
  - destruct Hv as (-> & _). assert (b = 1%nat) as -> by lia.
    exists k. split; [lia|reflexivity].
  - exists k, b, o. auto.
Qed.

(** ** What a session writes to the log *)

Lemma prefix_append_l (a b c : string) :
  prefix (a ++ b) c = true -> prefix a c = true.
Proof.
  revert c. induction a as [|x a IH]; intros c; [destruct c; reflexivity|].
  destruct c as [|y c]; cbn; [discriminate|].
  destruct (ascii_dec x y); [apply IH|discriminate].
Qed.

Lemma audit_of_any_status status chunk :
  is_audit status chunk = true -> is_audit "" chunk = true.
Proof. unfold is_audit. intros H. apply prefix_append_l in H. exact H. Qed.

Lemma filter_nil_weaken {A} (f g : A -> bool) (l : list A) :
  (forall x, f x = true -> g x = true) -> filter g l = [] -> filter f l = [].
Proof.
  intros Hfg. induction l as [|x l IH]; [reflexivity|].
  cbn [filter]. destruct (g x) eqn:Hg; [discriminate|].
  destruct (f x) eqn:Hf; [rewrite (Hfg x Hf) in Hg; discriminate|exact IH].
Qed.

Lemma count_audit_app status a b :
  count_audit status (a ++ b) = (count_audit status a + count_audit status b)%nat.
Proof. unfold count_audit. rewrite filter_app, length_app. reflexivity. Qed.

Lemma success_entry_is_audit username role timestamp token :
  is_audit "" (audit_entry username role true timestamp token ++ nl) = true /\
  is_audit "SUCCESS" (audit_entry username role true timestamp token ++ nl) = true /\
  is_audit "FAILURE" (audit_entry username role true timestamp token ++ nl) = false.
Proof. repeat split; reflexivity. Qed.

(** C4, as stated, fails on the last point: the token is the text of
    the UUID that the generator returns, and nothing in the program keeps
    a generator that repeats from handing the same token to a second
    session.  Here the generator returns one value twice: two sessions
    in a row are granted, the token of the second was issued before (to
    the first), and both records carry the same token. *)
Lemma repeated_uuid_gives_issued_token :
  session_verdict
    (repeating_world ["admin"; "4269"; "scan"; "123456";
                      "guest"; "1234"; "scan"; "123457"]) = Granted "admin" /\
  session_verdict
    (run main (repeating_world ["admin"; "4269"; "scan"; "123456";
                                "guest"; "1234"; "scan"; "123457"])) =
    Granted "guest" /\
  (let w := run main (repeating_world ["admin"; "4269"; "scan"; "123456";
                                       "guest"; "1234"; "scan"; "123457"]) in
   issued_before w (str_uuid (nth_uuid w (uuid_draws w))) /\
   str_uuid (nth_uuid w (uuid_draws w)) = "12345678-9abc-4ef0-9234-56789abcdef0") /\
  audit_log
    (run main
       (run main (repeating_world ["admin"; "4269"; "scan"; "123456";
                                   "guest"; "1234"; "scan"; "123457"]))) =
  [ ("[AUDIT] SUCCESS login for 'admin' (Admin) at 2025-07-04 09:05:00 | Token: 12345678-9abc-4ef0-9234-56789abcdef0"
       ++ nl)%string;
    ("[AUDIT] SUCCESS login for 'guest' (Guest) at 2025-07-04 09:05:01 | Token: 12345678-9abc-4ef0-9234-56789abcdef0"
       ++ nl)%string ].
Proof.
  split; [vm_compute; reflexivity|]. split; [vm_compute; reflexivity|].
  split; [|vm_compute; reflexivity].
  cbv zeta. split; [|vm_compute; reflexivity].
  exists 0%nat. split; [vm_compute; lia|vm_compute; reflexivity].
Qed.

(** C4, amended.  A session in which the PIN, the scan and the OTP are
    all accepted adds exactly one audit entry to the log: a SUCCESS entry
    for the principal and its role, stamped with the session's clock
    reading and carrying the token made from the UUID drawn in this
    session (one draw, the next of the generator).  No FAILURE entry is
    added.  The token was issued before exactly when the generator has
    returned that UUID before. *)
Theorem granted_session_logs_one_success (w : World) (username : string) :
  session_verdict w = Granted username ->
  let token := str_uuid (nth_uuid w (uuid_draws w)) in
  exists role added,
    dict_find username USER_ROLES = Some role /\
    audit_log (run main w) = audit_log w ++ added /\
    filter (is_audit "") added =
      [(audit_entry username role true
          (strftime (local (clock_src w (clock_reads w)))) token ++ nl)%string] /\
    count_audit "SUCCESS" (audit_log (run main w)) =
      S (count_audit "SUCCESS" (audit_log w)) /\
    count_audit "FAILURE" (audit_log (run main w)) =
      count_audit "FAILURE" (audit_log w) /\
    uuid_draws (run main w) = S (uuid_draws w) /\
    (issued_before w token <->
     exists n, (n < uuid_draws w)%nat /\ nth_uuid w n = nth_uuid w (uuid_draws w)).
Proof.
  intros Hv token.
  destruct (main_spec w) as (evs & chunks & dc & dr & du & F & k & b & o & _ & _ & _ & _ & _ & _ & H).
  rewrite Hv in H.
  destruct H as (_ & -> & _ & _ & role & forensic & Hrole & -> & Hfor & _).
  fold token in F |- *.
  set (entry := (audit_entry username role true
                   (strftime (local (clock_src w (clock_reads w)))) token ++ nl)%string) in *.
  destruct (success_entry_is_audit username role
              (strftime (local (clock_src w (clock_reads w)))) token) as (Ha & Hs & Hf).
  fold entry in Ha, Hs, Hf.
  exists role, (entry :: forensic).
  split; [exact Hrole|]. split; [apply F|].
  split; [cbn [filter]; rewrite Ha, Hfor; reflexivity|].
  assert (Hcs : count_audit "SUCCESS" (entry :: forensic) = 1%nat).
  { unfold count_audit. cbn [filter]. rewrite Hs.
    rewrite (filter_nil_weaken (is_audit "SUCCESS") (is_audit "") forensic
               (audit_of_any_status "SUCCESS") Hfor). reflexivity. }
  assert (Hcf : count_audit "FAILURE" (entry :: forensic) = 0%nat).
  { unfold count_audit. cbn [filter]. rewrite Hf.
    rewrite (filter_nil_weaken (is_audit "FAILURE") (is_audit "") forensic
               (audit_of_any_status "FAILURE") Hfor). reflexivity. }
  rewrite (fr_log _ _ _ _ _ _ _ F), !count_audit_app, Hcs, Hcf.
  split; [lia|]. split; [lia|].
  split; [rewrite (fr_uuid _ _ _ _ _ _ _ F); lia|].
  unfold issued_before. split.
  - intros (n & Hn & Heq). exists n. split; [exact Hn|]. symmetry.
    apply str_uuid_inj; [apply nth_uuid_range..|exact Heq].
  - intros (n & Hn & Heq). exists n. split; [exact Hn|].
    subst token. rewrite Heq. reflexivity.
Qed.

Lemma granted_session_logs_one_success_witness :
  session_verdict (later_world ["guest"; "9999"; "1234"; "sCaN"; "123456"]) =
    Granted "guest" /\
  exists role added,
    dict_find "guest" USER_ROLES = Some role /\
    audit_log (run main (later_world ["guest"; "9999"; "1234"; "sCaN"; "123456"])) =
      [("earlier line" ++ nl)%string] ++ added /\
    filter (is_audit "") added =
      [(audit_entry "guest" role true "2025-07-04 09:05:00"
          "12345678-9abc-4ef0-9234-56789abcdef2" ++ nl)%string].
Proof.
  split; [vm_compute; reflexivity|].
  destruct (granted_session_logs_one_success
              (later_world ["guest"; "9999"; "1234"; "sCaN"; "123456"]) "guest")
    as (role & added & Hrole & Hlog & Hfilter & _).
  - vm_compute. reflexivity.
  - exists role, added. split; [exact Hrole|]. split; [exact Hlog|]. exact Hfilter.
Defined.

(** ** The text of an audit record *)

Lemma known_user_no_newline username :
  dict_mem username USER_DB = true -> no_newline username = true.
Proof.
  unfold dict_mem, USER_DB. cbn [dict_find].
  destruct (String.eqb_spec username "admin") as [->|_]; [reflexivity|].
  destruct (String.eqb_spec username "analyst") as [->|_]; [reflexivity|].
  destruct (String.eqb_spec username "guest") as [->|_]; [reflexivity|discriminate].
Qed.

Lemma role_no_newline username role :
  dict_find username USER_ROLES = Some role -> no_newline role = true.
Proof.
  unfold USER_ROLES. cbn [dict_find].
  destruct (String.eqb username "admin"); [intros [= <-]; reflexivity|].
  destruct (String.eqb username "analyst"); [intros [= <-]; reflexivity|].
  destruct (String.eqb username "guest"); [intros [= <-]; reflexivity|discriminate].
Qed.

Lemma audit_entry_no_newline username role success timestamp token :
  no_newline (audit_entry username role success timestamp token) =
  no_newline username && no_newline role && no_newline timestamp && no_newline token.
Proof.
  unfold audit_entry. rewrite !no_newline_append.
  assert (Htag : no_newline (status_tag success) = true) by (destruct success; reflexivity).
  rewrite Htag.
  change (no_newline "[AUDIT] ") with true.
  change (no_newline " login for '") with true.
  change (no_newline "' (") with true.
  change (no_newline ") at ") with true.
  change (no_newline " | Token: ") with true.
  destruct (no_newline username), (no_newline role), (no_newline timestamp),
    (no_newline token); reflexivity.
Qed.

Lemma str_uuid_length u : String.length (str_uuid u) = 36%nat.
Proof.
  unfold str_uuid. rewrite !length_append, !hex_digits_length. reflexivity.
Qed.

(** [no_newline] in terms of the characters of the text. *)
Lemma no_newline_false_iff (s : string) :
  no_newline s = false <-> In "010"%char (list_ascii_of_string s).
Proof.
  induction s as [|c s IH]; cbn [no_newline list_ascii_of_string In].
  - split; [discriminate|intros []].
  - destruct (Ascii.eqb_spec c LF) as [->|Hc]; cbn [negb andb].
    + split; [intros _; left; reflexivity|reflexivity].
    + rewrite IH. split; [intros H; right; exact H|].
      intros [H|H]; [|exact H]. exfalso. apply Hc. exact H.
Qed.

Lemma no_newline_true_iff (s : string) :
  no_newline s = true <-> ~ In "010"%char (list_ascii_of_string s).
Proof.
  rewrite <- no_newline_false_iff.
  destruct (no_newline s); split; congruence.
Qed.

(** The timestamp: width and digits. *)
Lemma zeros_length n : String.length (zeros n) = n.
Proof. induction n as [|n IH]; cbn; [reflexivity|]. rewrite IH. reflexivity. Qed.

Lemma pad_length width n : (width <= String.length (pad width n))%nat.
Proof. unfold pad. rewrite length_append, zeros_length. lia. Qed.

Lemma strftime_length d : (19 <= String.length (strftime d))%nat.
Proof.
  unfold strftime. rewrite !length_append.
  pose proof (pad_length 4 (year d)). pose proof (pad_length 2 (month d)).
  pose proof (pad_length 2 (day d)). pose proof (pad_length 2 (hour d)).
  pose proof (pad_length 2 (minute d)). pose proof (pad_length 2 (second d)).
  change (String.length "-") with 1%nat. change (String.length " ") with 1%nat.
  change (String.length ":") with 1%nat. lia.
Qed.

Lemma pad_two_digits n :
  (n < 100)%nat ->
  pad 2 n = String (ascii_of_nat (48 + (n / 10) mod 10)%nat)
              (String (ascii_of_nat (48 + n mod 10)%nat) "").
Proof.
  intros Hn.
  assert (H : forallb (fun n =>
                         String.eqb (pad 2 n)
                           (String (ascii_of_nat (48 + (n / 10) mod 10)%nat)
                              (String (ascii_of_nat (48 + n mod 10)%nat) "")))
                (seq 0 100) = true) by (vm_compute; reflexivity).
  rewrite forallb_forall in H. apply String.eqb_eq, H, in_seq. lia.
Qed.

Lemma of_uint_acc_digit_cons k r acc :
  (k < 10)%nat ->
  Nat.of_uint_acc (digit_cons k r) acc = Nat.of_uint_acc r (10 * acc + k)%nat.
Proof.
  intros Hk.
  do 10 (destruct k as [|k];
         [cbn [digit_cons Nat.of_uint_acc]; rewrite Nat.tail_mul_spec;
          f_equal; lia|]).
  lia.
Qed.

Lemma string_of_digit_cons k r :
  (k < 10)%nat ->
  NilEmpty.string_of_uint (digit_cons k r) =
  String (ascii_of_nat (48 + k)) (NilEmpty.string_of_uint r).
Proof.
  intros Hk. do 10 (destruct k as [|k]; [reflexivity|]). lia.
Qed.

Lemma to_uint_four_digits a b c e :
  (1 <= a < 10)%nat -> (b < 10)%nat -> (c < 10)%nat -> (e < 10)%nat ->
  dec (1000 * a + 100 * b + 10 * c + e) =
  String (ascii_of_nat (48 + a)) (String (ascii_of_nat (48 + b))
    (String (ascii_of_nat (48 + c)) (String (ascii_of_nat (48 + e)) ""))).
Proof.
  intros Ha Hb Hc He.
  assert (Hn : (1000 * a + 100 * b + 10 * c + e)%nat =
               Nat.of_uint (digit_cons a (digit_cons b (digit_cons c
                              (digit_cons e Decimal.Nil))))).
  { unfold Nat.of_uint. rewrite !of_uint_acc_digit_cons by lia.
    cbn [Nat.of_uint_acc]. lia. }
  unfold dec. rewrite Hn, DecimalNat.Unsigned.to_of.
  assert (Hnorm : forall r, Decimal.unorm (digit_cons a r) = digit_cons a r).
  { intros r. destruct a as [|a]; [lia|].
    do 9 (destruct a as [|a]; [reflexivity|]). lia. }
  assert (Hstr : forall r, NilZero.string_of_uint (digit_cons a r) =
                           NilEmpty.string_of_uint (digit_cons a r)).
  { intros r. do 9 (destruct a as [|a]; [reflexivity|]). reflexivity. }
  rewrite Hnorm, Hstr, !string_of_digit_cons by lia. reflexivity.
Qed.

Lemma pad_four_digits n :
  (1 <= n / 1000 < 10)%nat ->
  pad 4 n = String (ascii_of_nat (48 + (n / 1000) mod 10)%nat)
              (String (ascii_of_nat (48 + (n / 100) mod 10)%nat)
                 (String (ascii_of_nat (48 + (n / 10) mod 10)%nat)
                    (String (ascii_of_nat (48 + n mod 10)%nat) ""))).
Proof.
  intros Hn.
  pose proof (Nat.div_mod_eq n 10) as H1.
  pose proof (Nat.mod_upper_bound n 10) as B1.
  pose proof (Nat.div_mod_eq (n / 10) 10) as H2.
  pose proof (Nat.mod_upper_bound (n / 10) 10) as B2.
  pose proof (Nat.div_mod_eq (n / 10 / 10) 10) as H3.
  pose proof (Nat.mod_upper_bound (n / 10 / 10) 10) as B3.
  rewrite !Nat.Div0.div_div in H2, H3, B3.
  change (10 * 10)%nat with 100%nat in *.
  rewrite Nat.Div0.div_div in H3.
  change (100 * 10)%nat with 1000%nat in *.
  rewrite (Nat.mod_small (n / 1000) 10) by lia.
  assert (Heq : n = (1000 * (n / 1000) + 100 * ((n / 100) mod 10) +
                     10 * ((n / 10) mod 10) + n mod 10)%nat) by lia.
  unfold pad. rewrite Heq at 1 2.
  rewrite to_uint_four_digits by lia. reflexivity.
Qed.

(** C8.  [log_audit] persists each record as one chunk: the text
    "[AUDIT] ", the status tag (the word SUCCESS or FAILURE), the
    principal, the role, the timestamp and the token, in this order,
    closed by one line feed.  The timestamp is the [strftime] text of the
    clock reading: at least 19 characters, none a line feed, and for a
    date with a year of four digits exactly the digits
    YYYY-MM-DD HH:MM:SS.
    So the record holds a line feed before its end only if the principal,
    role or token given to [log_audit] does.  Every audit record that a
    session persists is a SUCCESS record of this shape for a principal of
    [USER_DB], its role, and a token of 36 characters, and is one line.
    Texts are spelled out with the library's characters, [digit n] being
    the character of the last decimal digit of [n]. *)
Theorem audit_record_is_one_line (w : World) :
  let now := local (clock_src w (clock_reads w)) in
  let timestamp := strftime now in
  let digit := fun n : nat => ascii_of_nat (48 + n mod 10)%nat in
  let two := fun n : nat => String (digit (n / 10)%nat) (String (digit n) "") in
  let has_line_feed := fun s : string => In "010"%char (list_ascii_of_string s) in
  ((19 <= String.length timestamp)%nat /\
   ~ has_line_feed timestamp /\
   ((1 <= year now / 1000 <= 9)%nat /\ (1 <= month now <= 12)%nat /\
    (1 <= day now <= 31)%nat /\ (hour now <= 23)%nat /\
    (minute now <= 59)%nat /\ (second now <= 59)%nat ->
    timestamp =
      (two (year now / 100)%nat ++ two (year now) ++ "-" ++ two (month now) ++ "-" ++
       two (day now) ++ " " ++ two (hour now) ++ ":" ++ two (minute now) ++ ":" ++
       two (second now))%string)) /\
  (forall (username role : string) (success : bool) (token : string),
     let line := ("[AUDIT] " ++ (if success then "SUCCESS" else "FAILURE") ++
                  " login for '" ++ username ++ "' (" ++ role ++ ") at " ++
                  timestamp ++ " | Token: " ++ token)%string in
     outcome (log_audit username role success token) w = Ok tt /\
     audit_log (run (log_audit username role success token) w) =
       audit_log w ++ [(line ++ String "010" "")%string] /\
     (has_line_feed line <->
      has_line_feed username \/ has_line_feed role \/ has_line_feed token)) /\
  (exists added,
     audit_log (run main w) = audit_log w ++ added /\
     Forall (fun chunk =>
               if String.prefix "[AUDIT] " chunk then
                 exists username role token,
                   dict_mem username USER_DB = true /\
                   dict_find username USER_ROLES = Some role /\
                   token = str_uuid (nth_uuid w (uuid_draws w)) /\
                   String.length token = 36%nat /\
                   let line := ("[AUDIT] SUCCESS login for '" ++ username ++ "' (" ++
                                role ++ ") at " ++ timestamp ++ " | Token: " ++
                                token)%string in
                   chunk = (line ++ String "010" "")%string /\
                   ~ has_line_feed line
               else True) added).
Proof.
  cbv zeta. split; [|split].
  - split; [apply strftime_length|].
    split; [apply no_newline_true_iff, strftime_no_newline|].
    intros (Hy & Hmo & Hd & Hh & Hmi & Hs).
    unfold strftime.
    rewrite (pad_four_digits (year (local (clock_src w (clock_reads w))))) by lia.
    rewrite !pad_two_digits by lia.
    rewrite Nat.Div0.div_div. reflexivity.
  - intros username role success token.
    split; [destruct success; reflexivity|].
    split; [destruct success; reflexivity|].
    change ("[AUDIT] " ++ (if success then "SUCCESS" else "FAILURE") ++
            " login for '" ++ username ++ "' (" ++ role ++ ") at " ++
            strftime (local (clock_src w (clock_reads w))) ++ " | Token: " ++
            token)%string
      with (audit_entry username role success
              (strftime (local (clock_src w (clock_reads w)))) token).
    rewrite <- !no_newline_false_iff.
    rewrite audit_entry_no_newline, strftime_no_newline.
    destruct (no_newline username), (no_newline role), (no_newline token);
      cbn [andb]; intuition congruence.
  - destruct (main_spec w) as (evs & chunks & dc & dr & du & F & k & b & o & _ & _ & _ & _ & _ & _ & H).
    exists chunks. split; [apply F|].
    destruct (session_verdict w) as [| | | |username|];
      try (assert (chunks = []) as -> by tauto; constructor).
    destruct H as (_ & _ & _ & Hmem & role & forensic & Hrole & -> & Hfor & _).
    constructor.
    + destruct (success_entry_is_audit username role
                  (strftime (local (clock_src w (clock_reads w))))
                  (str_uuid (nth_uuid w (uuid_draws w)))) as (Ha & _).
      change (is_audit "" ?c) with (String.prefix "[AUDIT] " c) in Ha.
      rewrite Ha.
      exists username, role, (str_uuid (nth_uuid w (uuid_draws w))).
      split; [exact Hmem|]. split; [exact Hrole|]. split; [reflexivity|].
      split; [apply str_uuid_length|].
      split; [unfold audit_entry; rewrite <- !append_assoc; reflexivity|].
      apply no_newline_true_iff.
      change (no_newline (audit_entry username role true
                (strftime (local (clock_src w (clock_reads w))))
                (str_uuid (nth_uuid w (uuid_draws w)))) = true).
      rewrite audit_entry_no_newline, (known_user_no_newline _ Hmem),
        (role_no_newline _ _ Hrole), strftime_no_newline, str_uuid_no_newline.
      reflexivity.
    + clear - Hfor. induction forensic as [|c forensic IH]; constructor.
      * cbn [filter] in Hfor.
        change (is_audit "" c) with (String.prefix "[AUDIT] " c) in Hfor.
        destruct (String.prefix "[AUDIT] " c); [discriminate|exact I].
      * apply IH. cbn [filter] in Hfor. destruct (is_audit "" c); [discriminate|exact Hfor].
Qed.

Lemma audit_record_is_one_line_witness :
  audit_log (run (log_audit "admin" "Admin" false "t") (demo_world [])) =
    [ ("[AUDIT] FAILURE login for 'admin' (Admin) at 2025-07-04 09:05:00 | Token: t"
         ++ String "010" "")%string ] /\
  (19 <= String.length (strftime (mkDateTime 2025 7 4 9 5 0)))%nat /\
  strftime (mkDateTime 2025 7 4 9 5 0) = "2025-07-04 09:05:00".
Proof.
  destruct (audit_record_is_one_line (demo_world [])) as ((Hlen & _ & Hts) & Hcall & _).
  destruct (Hcall "admin" "Admin" false "t") as (_ & Hlog & _).
  assert (Hnow : local (clock_src (demo_world []) (clock_reads (demo_world []))) =
                 mkDateTime 2025 7 4 9 5 0) by reflexivity.
  rewrite Hnow in Hlen, Hts, Hlog.
  assert (Hdigits : strftime (mkDateTime 2025 7 4 9 5 0) = "2025-07-04 09:05:00").
  { rewrite Hts; [vm_compute; reflexivity|]. vm_compute. lia. }
  split; [|split; [exact Hlen|exact Hdigits]].
  rewrite Hlog, Hdigits. reflexivity.
Defined.

(** ** Sequence identifiers *)

Example same_record_twice :
  audit_log
    (run (log_all [("admin", "Admin", true, "t"); ("admin", "Admin", true, "t")])
       burst_world) =
  [ ("[AUDIT] SUCCESS login for 'admin' (Admin) at 2025-07-04 09:05:00 | Token: t"
       ++ nl)%string;
    ("[AUDIT] SUCCESS login for 'admin' (Admin) at 2025-07-04 09:05:00 | Token: t"
       ++ nl)%string ].
Proof. vm_compute. reflexivity. Qed.

(** C6, as stated, fails: the text of a record does not depend on how
    many records were written before it, and two calls of [log_audit]
    within the same second with the same arguments persist the same text
    twice, so no identifier read off the records can grow from one record
    to the next. *)
Lemma records_carry_no_sequence_id : ~ exists seq_id, sequence_numbered seq_id.
Proof.
  intros [seq_id H].
  specialize (H burst_world ("admin", "Admin", true, "t") ("admin", "Admin", true, "t")).
  cbv zeta in H.
  assert (Hsame :
    last (audit_log
            (run (log_all [("admin", "Admin", true, "t")])
               (run (log_all [("admin", "Admin", true, "t")]) burst_world))) "" =
    last (audit_log (run (log_all [("admin", "Admin", true, "t")]) burst_world)) "")
    by (vm_compute; reflexivity).
  rewrite Hsame in H. lia.
Qed.

Lemma log_all_cons call rest w :
  log_all (call :: rest) w =
  log_all rest (run (log_all [call]) w).
Proof. destruct call as [[[username role] success] token]. reflexivity. Qed.

(** C6, amended.  Records carry no sequence identifier.  [log_audit]
    always succeeds in appending its record after all earlier content of
    the log, which it leaves as it was; so the record of the [i]-th call
    is the [i]-th chunk added: positions in the log grow by one per
    record, without gaps, in the order of recording. *)
Theorem log_keeps_recording_order (calls : list (string * string * bool * string))
    (w : World) :
  outcome (log_all calls) w = Ok tt /\
  exists added,
    audit_log (run (log_all calls) w) = audit_log w ++ added /\
    length added = length calls /\
    forall i username role success token,
      nth_error calls i = Some (username, role, success, token) ->
      nth_error (audit_log (run (log_all calls) w)) (length (audit_log w) + i) =
      Some (audit_entry username role success
              (strftime (local (clock_src w (clock_reads w + i)))) token ++ nl)%string.
Proof.
  revert w. induction calls as [|call calls IH]; intros w.
  - split; [reflexivity|]. exists []. split; [symmetry; apply app_nil_r|].
    split; [reflexivity|]. intros [|i]; discriminate.
  - unfold run, outcome in *. rewrite log_all_cons.
    destruct call as [[[username role] success] token].
    set (w1 := run (log_all [(username, role, success, token)]) w).
    set (entry := (audit_entry username role success
                     (strftime (local (clock_src w (clock_reads w)))) token ++ nl)%string).
    assert (Hlog1 : audit_log w1 = audit_log w ++ [entry]) by reflexivity.
    assert (Hsrc : clock_src w1 = clock_src w) by reflexivity.
    assert (Hreads : clock_reads w1 = S (clock_reads w)) by reflexivity.
    destruct (IH w1) as (Hok & added & Hlog & Hlen & Hnth).
    split; [exact Hok|]. exists (entry :: added).
    rewrite Hlog1, <- app_assoc in Hlog. cbn [app] in Hlog.
    split; [exact Hlog|]. split; [cbn [length]; lia|].
    intros [|i] u r s t Hcall.
    + injection Hcall as <- <- <- <-. rewrite !Nat.add_0_r, Hlog.
      rewrite nth_error_app2, Nat.sub_diag by lia. reflexivity.
    + cbn [nth_error] in Hcall. specialize (Hnth i u r s t Hcall).
      rewrite Hsrc, Hreads, Hlog1, length_app in Hnth. cbn [length] in Hnth.
      replace (length (audit_log w) + S i)%nat with (length (audit_log w) + 1 + i)%nat by lia.
      replace (clock_reads w + S i)%nat with (S (clock_reads w) + i)%nat by lia.
      exact Hnth.
Qed.

(** ** Sessions that fail *)

(** Runs the model on closed inputs. *)
Ltac run_closed :=
  repeat match goal with
         | |- _ /\ _ => split
         | |- let _ := _ in _ => intro
         end;
  vm_compute; reflexivity.

(** C1, on the code.  A session that fails at the secret, the biometric
    or the OTP stage ends normally without a token (no UUID is drawn) and
    without any audit entry: the log is left as it was, no FAILURE entry
    is written.  Three such sessions, one per stage, are run. *)
Theorem failed_session_writes_no_audit_entry :
  (forall w : World,
     match session_verdict w with
     | SecretFailed | BiometricFailed | OtpFailed =>
         outcome main w = Ok tt /\
         audit_log (run main w) = audit_log w /\
         uuid_draws (run main w) = uuid_draws w
     | _ => True
     end) /\
  (session_verdict (demo_world ["admin"; "0000"; "1111"; "2222"]) = SecretFailed /\
   audit_log (run main (demo_world ["admin"; "0000"; "1111"; "2222"])) = []) /\
  (session_verdict (demo_world ["guest"; "1234"; "no"]) = BiometricFailed /\
   audit_log (run main (demo_world ["guest"; "1234"; "no"])) = []) /\
  (session_verdict (demo_world ["admin"; "4269"; "scan"; "000000"]) = OtpFailed /\
   audit_log (run main (demo_world ["admin"; "4269"; "scan"; "000000"])) = []).
Proof.
  split; [|run_closed].
  intros w.
  destruct (main_spec w) as (evs & chunks & dc & dr & du & F & k & b & o & _ & _ & _ & _ & _ & _ & H).
  pose proof (fr_log _ _ _ _ _ _ _ F) as Hlog.
  pose proof (fr_uuid _ _ _ _ _ _ _ F) as Huuid.
  destruct (session_verdict w); try exact I.
  - destruct H as (_ & _ & -> & -> & ->). rewrite app_nil_r in Hlog.
    repeat split; [exact Hlog|lia].
  - destruct H as (_ & _ & -> & -> & ->). rewrite app_nil_r in Hlog.
    repeat split; [exact Hlog|lia].
  - destruct H as (_ & -> & -> & ->). rewrite app_nil_r in Hlog.
    repeat split; [exact Hlog|lia].
Qed.

(** C2, on the code.  For a principal that is not in the credential
    store the session ends at once: no factor is called, the clock is not
    read, nothing is drawn; but no audit entry is written either, the log
    is left as it was.  The session of "ghost" is run. *)
Theorem unknown_principal_writes_no_audit_entry :
  (forall w : World,
     match session_verdict w with
     | UnknownPrincipal =>
         outcome main w = Ok tt /\
         audit_log (run main w) = audit_log w /\
         exists evs,
           frame w (run main w) evs [] 0 0 0 /\ factors_run evs = []
     | _ => True
     end) /\
  session_verdict (demo_world ["ghost"]) = UnknownPrincipal /\
  audit_log (run main (demo_world ["ghost"])) = [] /\
  terminal (run main (demo_world ["ghost"])) =
    terminal (run banner (demo_world ["ghost"])) ++
    [Input prompt_username (Some "ghost"); Print "🚫 Unknown user."].
Proof.
  split; [|run_closed].
  intros w. unfold session_verdict, run, outcome. rewrite main_unfold.
  destruct (start_spec w) as (e0 & F0 & Hf0 & _). unfold run in F0.
  destruct ((banner ;; input prompt_username) w) as [[username| |] w1]; try exact I.
  cbn [snd] in F0.
  destruct (dict_mem username USER_DB) eqn:Hmem; cbn [negb].
  - destruct (verify_pin username w1) as [[[|]| |] w2]; try exact I.
    destruct (simulate_biometric w2) as [[[|]| |] w3]; try exact I.
    destruct (simulate_otp w3) as [[[|]| |] w4]; exact I.
  - unfold print. cbn [fst snd].
    assert (Fu : frame w1 (emit (Print "🚫 Unknown user.") w1)
                   [Print "🚫 Unknown user."] [] 0 0 0) by frame_explicit.
    pose proof (frame_trans _ _ _ _ _ _ _ _ _ _ _ _ _ F0 Fu) as F.
    cbn [app Nat.add] in F.
    split; [reflexivity|]. split.
    + rewrite (fr_log _ _ _ _ _ _ _ F). apply app_nil_r.
    + eexists. split; [exact F|]. rewrite factors_run_app, Hf0. reflexivity.
Qed.

(** C3, on the code.  The lockout does not outlast the call that
    declares it.  After three refused PINs for "admin" the call prints
    that the account is locked; the next call, one second later by the
    clock, asks for a PIN again and accepts the right one; and the next
    session of "admin" is granted. *)
Theorem lockout_is_forgotten_after_the_call :
  outcome (verify_pin "admin") (demo_world ["0000"; "1111"; "2222"; "4269"]) =
    Ok false /\
  terminal (run (verify_pin "admin") (demo_world ["0000"; "1111"; "2222"; "4269"])) =
    [Input prompt_pin (Some "0000"); Print (msg_incorrect 1);
     Input prompt_pin (Some "1111"); Print (msg_incorrect 2);
     Input prompt_pin (Some "2222"); Print (msg_incorrect 3);
     Print msg_too_many] /\
  (let w1 := run (verify_pin "admin") (demo_world ["0000"; "1111"; "2222"; "4269"]) in
   Qlt_bool (epoch (clock_src w1 (clock_reads w1)) - epoch (demo_clock 0))
            LOCKOUT_DURATION = true /\
   outcome (verify_pin "admin") w1 = Ok true /\
   terminal (run (verify_pin "admin") w1) =
     terminal w1 ++ [Input prompt_pin (Some "4269")]) /\
  (let w := demo_world ["admin"; "0000"; "1111"; "2222";
                        "admin"; "4269"; "scan"; "123456"] in
   session_verdict w = SecretFailed /\
   session_verdict (run main w) = Granted "admin" /\
   count_audit "SUCCESS" (audit_log (run main (run main w))) = 1%nat).
Proof. run_closed. Qed.

(** * Further properties of the code *)

(** ** verify_pin as a reader of standard input *)

(** The loop takes the waiting lines as [scan_pins] does. *)
Lemma verify_pin_loop_reads username stored :
  dict_find username USER_DB = Some stored ->
  forall fuel l w budget,
    lockout_start l = None ->
    budget = Z.to_nat (MAX_ATTEMPTS - attempts l) ->
    (budget < fuel)%nat ->
    outcome (verify_pin_loop fuel username l) w =
      match fst (scan_pins stored budget (stdin w)) with
      | Some result => Ok result
      | None => Raise EOFError
      end /\
    stdin (run (verify_pin_loop fuel username l) w) =
      snd (scan_pins stored budget (stdin w)).
Proof.
  intros Hdb. unfold outcome, run.
  induction fuel as [|fuel IH]; intros l w budget Hopen Hbudget Hfuel; [lia|].
  cbn [verify_pin_loop].
  destruct (Z.ltb_spec (attempts l) MAX_ATTEMPTS) as [Hlt|Hge].
  2:{ assert (budget = 0%nat) as -> by lia. split; reflexivity. }
  destruct budget as [|budget]; [lia|].
  unfold bind. rewrite (verify_pin_body_open username l w Hopen), Hdb.
  cbn [scan_pins]. destruct (stdin w) as [|pin rest] eqn:Hin.
  { world_simpl. rewrite Hin. split; reflexivity. }
  cbv zeta. destruct (String.eqb (hash_pin pin) stored).
  { world_simpl. split; reflexivity. }
  destruct (Z.geb_spec (attempts l + 1) MAX_ATTEMPTS) as [Hlast|Hmore].
  { assert (budget = 0%nat) as -> by lia. world_simpl. split; reflexivity. }
  match goal with
  | |- context [verify_pin_loop fuel username ?l' ?w'] =>
      destruct (IH l' w' budget eq_refl) as [Hout Hrest];
        [cbn [attempts]; lia|lia|]
  end.
  world_simpl. split; assumption.
Qed.

Lemma verify_pin_reads username stored w :
  dict_find username USER_DB = Some stored ->
  outcome (verify_pin username) w =
    match fst (scan_pins stored 3 (stdin w)) with
    | Some result => Ok result
    | None => Raise EOFError
    end /\
  stdin (run (verify_pin username) w) = snd (scan_pins stored 3 (stdin w)).
Proof.
  intros Hdb. unfold verify_pin.
  apply (verify_pin_loop_reads username stored Hdb); [reflexivity|reflexivity|].
  cbn. lia.
Qed.

(** [scan_pins] stops at the first PIN that matches. *)
Lemma scan_pins_match stored budget wrong pin rest :
  (length wrong < budget)%nat ->
  forallb (wrong_pin stored) wrong = true ->
  String.eqb (hash_pin pin) stored = true ->
  scan_pins stored budget (wrong ++ pin :: rest) = (Some true, rest).
Proof.
  revert budget. induction wrong as [|p wrong IH]; intros budget Hlen Hwrong Hpin.
  - destruct budget as [|budget]; [cbn in Hlen; lia|].
    cbn [app scan_pins]. rewrite Hpin. reflexivity.
  - destruct budget as [|budget]; [cbn in Hlen; lia|].
    cbn [forallb] in Hwrong. apply andb_prop in Hwrong. destruct Hwrong as [Hp Hwrong].
    unfold wrong_pin in Hp. apply negb_true_iff in Hp.
    cbn [app scan_pins]. rewrite Hp. apply IH; [cbn in Hlen; lia|assumption..].
Qed.

Lemma scan_pins_refused stored budget wrong rest :
  length wrong = budget ->
  forallb (wrong_pin stored) wrong = true ->
  scan_pins stored budget (wrong ++ rest) = (Some false, rest).
Proof.
  revert budget. induction wrong as [|p wrong IH]; intros budget Hlen Hwrong.
  - cbn in Hlen. subst budget. reflexivity.
  - destruct budget as [|budget]; [discriminate Hlen|].
    cbn [forallb] in Hwrong. apply andb_prop in Hwrong. destruct Hwrong as [Hp Hwrong].
    unfold wrong_pin in Hp. apply negb_true_iff in Hp.
    cbn [app scan_pins]. rewrite Hp. apply IH; [cbn in Hlen; lia|assumption].
Qed.

Lemma scan_pins_starved stored budget wrong :
  (length wrong < budget)%nat ->
  forallb (wrong_pin stored) wrong = true ->
  scan_pins stored budget wrong = (None, []).
Proof.
  revert budget. induction wrong as [|p wrong IH]; intros budget Hlen Hwrong.
  - destruct budget as [|budget]; [cbn in Hlen; lia|]. reflexivity.
  - destruct budget as [|budget]; [cbn in Hlen; lia|].
    cbn [forallb] in Hwrong. apply andb_prop in Hwrong. destruct Hwrong as [Hp Hwrong].
    unfold wrong_pin in Hp. apply negb_true_iff in Hp.
    cbn [scan_pins]. rewrite Hp. apply IH; [cbn in Hlen; lia|assumption].
Qed.

(** Conversely, an accepted run names the PIN that matched. *)
Lemma scan_pins_true_inv stored budget lines rest :
  scan_pins stored budget lines = (Some true, rest) ->
  exists wrong pin,
    lines = wrong ++ pin :: rest /\
    (length wrong < budget)%nat /\
    forallb (wrong_pin stored) wrong = true /\
    String.eqb (hash_pin pin) stored = true.
Proof.
  revert lines. induction budget as [|budget IH]; intros lines H; [discriminate H|].
  destruct lines as [|p lines]; [discriminate H|]. cbn [scan_pins] in H.
  destruct (String.eqb (hash_pin p) stored) eqn:Hp.
  - injection H as <-. exists [], p. repeat split; [cbn; lia|exact Hp].
  - destruct (IH lines H) as (wrong & pin & -> & Hlen & Hwrong & Hpin).
    exists (p :: wrong), pin. repeat split; [cbn; lia| |exact Hpin].
    cbn [forallb]. unfold wrong_pin at 1. rewrite Hp. exact Hwrong.
Qed.

Lemma scan_pins_length stored budget lines :
  (length lines <= length (snd (scan_pins stored budget lines)) + budget)%nat /\
  (fst (scan_pins stored budget lines) = None -> (length lines < budget)%nat).
Proof.
  revert lines. induction budget as [|budget IH]; intros lines.
  - cbn [scan_pins fst snd]. split; [lia|discriminate].
  - destruct lines as [|p lines]; cbn [scan_pins].
    + cbn [fst snd length]. split; [lia|intros _; lia].
    + destruct (String.eqb (hash_pin p) stored).
      * cbn [fst snd length]. split; [lia|discriminate].
      * destruct (IH lines) as [H1 H2]. cbn [length]. split; [lia|].
        intros H. specialize (H2 H). lia.
Qed.

(** X1.  [verify_pin] reads PINs from the front of standard input up to
    and including the first one that hashes to the stored digest, and at
    most [MAX_ATTEMPTS] of them; the lines after it stay for the next
    prompt.  With fewer than three wrong PINs before the right one it
    returns True; with three wrong PINs it returns False having read the
    three; when input ends before that it raises [EOFError]. *)
Theorem verify_pin_stops_at_first_match (username stored : string) (w : World) :
  dict_find username USER_DB = Some stored ->
  (forall wrong pin rest,
     stdin w = wrong ++ pin :: rest ->
     (length wrong < 3)%nat ->
     forallb (wrong_pin stored) wrong = true ->
     String.eqb (hash_pin pin) stored = true ->
     outcome (verify_pin username) w = Ok true /\
     stdin (run (verify_pin username) w) = rest) /\
  (forall wrong rest,
     stdin w = wrong ++ rest ->
     length wrong = 3%nat ->
     forallb (wrong_pin stored) wrong = true ->
     outcome (verify_pin username) w = Ok false /\
     stdin (run (verify_pin username) w) = rest) /\
  ((length (stdin w) < 3)%nat ->
   forallb (wrong_pin stored) (stdin w) = true ->
   outcome (verify_pin username) w = Raise EOFError /\
   stdin (run (verify_pin username) w) = []).
Proof.
  intros Hdb. destruct (verify_pin_reads username stored w Hdb) as [Hout Hin].
  rewrite Hout, Hin. split; [|split].
  - intros wrong pin rest -> Hlen Hwrong Hpin.
    rewrite (scan_pins_match stored 3 wrong pin rest Hlen Hwrong Hpin).
    split; reflexivity.
  - intros wrong rest -> Hlen Hwrong.
    rewrite (scan_pins_refused stored 3 wrong rest Hlen Hwrong). split; reflexivity.
  - intros Hlen Hwrong.
    rewrite (scan_pins_starved stored 3 (stdin w) Hlen Hwrong). split; reflexivity.
Qed.

Lemma verify_pin_stops_at_first_match_witness :
  outcome (verify_pin "guest") (demo_world ["0000"; "1234"; "scan"; "123456"]) =
    Ok true /\
  stdin (run (verify_pin "guest") (demo_world ["0000"; "1234"; "scan"; "123456"])) =
    ["scan"; "123456"].
Proof.
  destruct (verify_pin_stops_at_first_match "guest" (SHA256.hexdigest "1234")
              (demo_world ["0000"; "1234"; "scan"; "123456"]) eq_refl)
    as (Hfirst & _ & _).
  apply (Hfirst ["0000"] "1234" ["scan"; "123456"]).
  - reflexivity.
  - cbn. lia.
  - vm_compute. reflexivity.
  - vm_compute. reflexivity.
Defined.

(** X2.  [verify_pin] trusts its caller to pass a principal of the
    credential store: for any other name it still asks for a PIN, takes
    the line, and only then fails with [KeyError]; nothing is logged. *)
Theorem verify_pin_of_unknown_user_raises (username pin : string)
    (rest : list string) (w : World) :
  dict_find username USER_DB = None ->
  stdin w = pin :: rest ->
  outcome (verify_pin username) w = Raise (KeyError username) /\
  terminal (run (verify_pin username) w) =
    terminal w ++ [Input prompt_pin (Some pin)] /\
  stdin (run (verify_pin username) w) = rest /\
  audit_log (run (verify_pin username) w) = audit_log w.
Proof.
  intros Hdb Hin. unfold verify_pin, outcome, run. cbn [verify_pin_loop Z.to_nat].
  change (attempts (mkLocals 0 None) <? MAX_ATTEMPTS) with true. cbv iota.
  unfold bind. rewrite (verify_pin_body_open username (mkLocals 0 None) w eq_refl).
  rewrite Hin, Hdb. repeat split.
Qed.

Lemma verify_pin_of_unknown_user_raises_witness :
  outcome (verify_pin "ghost") (demo_world ["4269"; "x"]) = Raise (KeyError "ghost") /\
  stdin (run (verify_pin "ghost") (demo_world ["4269"; "x"])) = ["x"].
Proof.
  destruct (verify_pin_of_unknown_user_raises "ghost" "4269" ["x"]
              (demo_world ["4269"; "x"]) eq_refl eq_refl) as (H1 & _ & H3 & _).
  split; assumption.
Defined.

(** ** A session as a function of its input *)

Lemma dict_mem_false_find k d : dict_mem k d = false -> dict_find k d = None.
Proof. unfold dict_mem. destruct (dict_find k d); [discriminate|reflexivity]. Qed.

(** The verdict of a session depends on nothing but the waiting input
    lines and the next value of the random generator. *)
Lemma session_verdict_of_input w : session_verdict w = input_verdict w.
Proof.
  unfold session_verdict, input_verdict.
  destruct (start_spec w) as (e0 & F0 & _ & H0). unfold run, outcome in F0, H0.
  destruct ((banner ;; input prompt_username) w) as [out0 w1]. cbn [fst snd] in F0, H0.
  destruct (stdin w) as [|username lines]; [rewrite H0; reflexivity|].
  destruct H0 as [-> Hin1].
  destruct (dict_mem username USER_DB) eqn:Hmem; cbn [negb].
  2:{ rewrite (dict_mem_false_find _ _ Hmem). reflexivity. }
  destruct (dict_mem_find _ _ Hmem) as [stored Hdb]. rewrite Hdb.
  destruct (verify_pin_reads username stored w1 Hdb) as [Hout1 Hin2].
  pose proof (verify_pin_spec username stored w1 Hdb) as (e1 & dc1 & F1 & _).
  unfold run, outcome in Hout1, Hin2, F1.
  destruct (verify_pin username w1) as [out1 w2]. cbn [fst snd] in Hout1, Hin2, F1.
  rewrite Hin1 in Hout1, Hin2.
  destruct (scan_pins stored 3 lines) as [[[|]|] lines2]; cbn [fst snd] in Hout1, Hin2;
    subst out1; try reflexivity.
  destruct (simulate_biometric_spec w2) as (e2 & F2 & _ & H2).
  unfold run, outcome in F2, H2.
  destruct (simulate_biometric w2) as [out2 w3]. cbn [fst snd] in F2, H2.
  rewrite Hin2 in H2. destruct lines2 as [|scan lines3].
  { destruct H2 as [-> _]. reflexivity. }
  destruct H2 as (-> & Hin3 & _).
  destruct (String.eqb (lower scan) "scan"); [|reflexivity].
  destruct (simulate_otp_spec w3) as (e3 & F3 & _ & H3).
  unfold run, outcome in F3, H3.
  destruct (simulate_otp w3) as [out3 w4]. cbn [fst snd] in F3, H3.
  rewrite Hin3 in H3. destruct lines3 as [|entered lines4].
  { destruct H3 as [-> _]. reflexivity. }
  destruct H3 as (-> & _ & _).
  pose proof (frame_trans _ _ _ _ _ _ _ _ _ _ _ _ _ F0
                (frame_trans _ _ _ _ _ _ _ _ _ _ _ _ _ F1 F2)) as F.
  unfold next_otp.
  rewrite (fr_rand_src _ _ _ _ _ _ _ F), (fr_rand _ _ _ _ _ _ _ F), Nat.add_0_r.
  destruct (String.eqb entered _); reflexivity.
Qed.

(** The input of a granted session. *)
Lemma granted_verdict_input (w : World) (username : string) :
  session_verdict w = Granted username ->
  exists rest, granting_input w username rest.
Proof.
  rewrite session_verdict_of_input. unfold input_verdict, granting_input.
  destruct (stdin w) as [|u lines]; [discriminate|].
  destruct (dict_find u USER_DB) as [stored|] eqn:Hdb; [|discriminate].
  destruct (scan_pins stored 3 lines) as [[[|]|] [|scan [|entered rest]]] eqn:Hscan;
    try discriminate.
  - destruct (String.eqb (lower scan) "scan"); discriminate.
  - destruct (String.eqb_spec (lower scan) "scan") as [Hscan'|]; [|discriminate].
    destruct (String.eqb_spec entered (next_otp w)) as [Hotp|]; [|discriminate].
    intros [= ->].
    destruct (scan_pins_true_inv _ _ _ _ Hscan) as (wrong & pin & -> & Hlen & Hwrong & Hpin).
    exists rest, stored, wrong, pin, scan, entered.
    apply String.eqb_eq in Hpin. repeat split; auto.
Qed.

(** X3.  Access is granted to [username] exactly when the input lines
    are: the name of a principal of the credential store, fewer than
    three PINs that do not match followed by one that hashes to the
    stored digest, a spelling of "scan", and the OTP just generated. *)
Theorem session_granted_iff (w : World) (username : string) :
  session_verdict w = Granted username <->
  exists rest, granting_input w username rest.
Proof.
  split; [apply granted_verdict_input|].
  rewrite session_verdict_of_input. unfold input_verdict, granting_input.
  intros (rest & stored & wrong & pin & scan & entered & -> & -> & Hlen & Hwrong & Hpin & Hscan & Hotp).
  apply String.eqb_eq in Hpin.
  rewrite (scan_pins_match stored 3 wrong pin _ Hlen Hwrong Hpin).
  rewrite Hscan, Hotp, !String.eqb_refl. reflexivity.
Qed.

(** X6.  The verdict of a session depends on the waiting input lines
    and on the next value of the random generator only: not on the
    clock, on what the log or the terminal hold, or on the UUIDs. *)
Theorem verdict_ignores_clock_and_log (w w' : World) :
  stdin w = stdin w' ->
  next_otp w = next_otp w' ->
  session_verdict w = session_verdict w'.
Proof.
  intros Hin Hotp. rewrite !session_verdict_of_input. unfold input_verdict.
  rewrite Hin, Hotp. reflexivity.
Qed.

Lemma verdict_ignores_clock_and_log_witness :
  session_verdict (later_world ["guest"; "1234"; "scan"; "123456"]) =
  session_verdict (mkWorld ["guest"; "1234"; "scan"; "123456"] [] burst_clock 7
                     (fun _ => 23456) 0 (fun _ => 0) 5 ["x"]).
Proof.
  apply verdict_ignores_clock_and_log; reflexivity.
Defined.

(** ** Routing and the forensic module *)

(** What [forensic_module] does, by the lines waiting on the input. *)
Lemma forensic_module_effect (w : World) :
  match stdin w with
  | evidence_id :: note :: rest =>
      outcome forensic_module w = Ok tt /\
      audit_log (run forensic_module w) =
        audit_log w ++ [(forensic_entry evidence_id note ++ nl)%string] /\
      stdin (run forensic_module w) = rest /\
      no_newline (forensic_entry evidence_id note) =
        no_newline evidence_id && no_newline note /\
      is_audit "" (forensic_entry evidence_id note ++ nl) = false
  | _ =>
      outcome forensic_module w = Raise EOFError /\
      audit_log (run forensic_module w) = audit_log w /\
      stdin (run forensic_module w) = []
  end.
Proof.
  unfold outcome, run, forensic_module, bind, print, input, log_to_file. world_simpl.
  destruct (stdin w) as [|evidence_id [|note rest]] eqn:Hin; world_simpl;
    rewrite ?Hin; world_simpl; [repeat split..|].
  split; [reflexivity|]. split; [reflexivity|]. split; [reflexivity|].
  split; [|reflexivity].
  unfold forensic_entry. rewrite !no_newline_append.
  change (no_newline "[FORENSIC] Evidence ID: ") with true.
  change (no_newline ", Note: ") with true. reflexivity.
Qed.

(** X4.  [forensic_module] asks for an evidence id and a note.  With
    two lines of input it logs exactly one chunk, the forensic entry made
    of them and a line feed, and leaves the remaining lines.  With fewer
    lines it raises [EOFError] and logs nothing: an evidence id already
    typed is lost.  A forensic entry is one line exactly when the id and
    the note are, and it is never an audit entry. *)
Theorem forensic_module_logs_one_entry (w : World) :
  match stdin w with
  | evidence_id :: note :: rest =>
      outcome forensic_module w = Ok tt /\
      audit_log (run forensic_module w) =
        audit_log w ++ [(forensic_entry evidence_id note ++ nl)%string] /\
      stdin (run forensic_module w) = rest /\
      no_newline (forensic_entry evidence_id note) =
        no_newline evidence_id && no_newline note /\
      is_audit "" (forensic_entry evidence_id note ++ nl) = false
  | _ =>
      outcome forensic_module w = Raise EOFError /\
      audit_log (run forensic_module w) = audit_log w /\
      stdin (run forensic_module w) = []
  end.
Proof. exact (forensic_module_effect w). Qed.

Lemma route_to_module_run role w :
  route_to_module role w =
  if String.eqb role "Admin" then
    (Ok tt, emit (Print "Simulated SPA endpoint: /admin/dashboard")
              (emit (Print "🔧 Routing to Admin Control Panel...") w))
  else if String.eqb role "Analyst" then
    forensic_module (emit (Print "🔍 Routing to Forensic Evidence Dashboard...") w)
  else if String.eqb role "Guest" then
    (Ok tt, emit (Print "Simulated SPA endpoint: /guest/view")
              (emit (Print "📄 Routing to Read-Only SPA Toolkit...") w))
  else (Ok tt, emit (Print "⚠️ Unknown role.") w).
Proof.
  unfold route_to_module.
  destruct (String.eqb role "Admin"); [reflexivity|].
  destruct (String.eqb role "Analyst"); [reflexivity|].
  destruct (String.eqb role "Guest"); reflexivity.
Qed.

(** What [route_to_module] does, by the role. *)
Lemma route_to_module_cases (role : string) (w : World) :
  (role <> "Analyst" ->
   outcome (route_to_module role) w = Ok tt /\
   stdin (run (route_to_module role) w) = stdin w /\
   audit_log (run (route_to_module role) w) = audit_log w) /\
  (role <> "Admin" -> role <> "Analyst" -> role <> "Guest" ->
   terminal (run (route_to_module role) w) =
     terminal w ++ [Print "⚠️ Unknown role."]) /\
  (role = "Analyst" ->
   outcome (route_to_module role) w =
     outcome forensic_module w /\
   stdin (run (route_to_module role) w) = stdin (run forensic_module w) /\
   audit_log (run (route_to_module role) w) = audit_log (run forensic_module w)).
Proof.
  unfold outcome, run. rewrite route_to_module_run. split; [|split].
  - intros Hrole.
    destruct (String.eqb role "Admin"); [repeat split|].
    destruct (String.eqb_spec role "Analyst"); [contradiction|].
    destruct (String.eqb role "Guest"); repeat split.
  - intros Hadmin Hanalyst Hguest.
    destruct (String.eqb_spec role "Admin"); [contradiction|].
    destruct (String.eqb_spec role "Analyst"); [contradiction|].
    destruct (String.eqb_spec role "Guest"); [contradiction|]. reflexivity.
  - intros ->. change (String.eqb "Analyst" "Admin") with false.
    change (String.eqb "Analyst" "Analyst") with true. cbv iota.
    unfold forensic_module, bind, print, input, log_to_file. world_simpl.
    destruct (stdin w) as [|evidence_id [|note rest]] eqn:Hin; world_simpl;
      rewrite ?Hin; world_simpl; repeat split.
Qed.

(** X5.  [route_to_module] reaches the forensic module for the role
    "Analyst" only.  For every other role, known or not, it returns
    normally having printed one or two lines, without reading input and
    without writing to the log; a role outside the three known ones (the
    comparison is exact, so "admin" is one) gets the unknown-role warning
    alone. *)
Theorem route_to_module_by_role (role : string) (w : World) :
  (role <> "Analyst" ->
   outcome (route_to_module role) w = Ok tt /\
   stdin (run (route_to_module role) w) = stdin w /\
   audit_log (run (route_to_module role) w) = audit_log w) /\
  (role <> "Admin" -> role <> "Analyst" -> role <> "Guest" ->
   terminal (run (route_to_module role) w) =
     terminal w ++ [Print "⚠️ Unknown role."]) /\
  (role = "Analyst" ->
   outcome (route_to_module role) w =
     outcome forensic_module w /\
   stdin (run (route_to_module role) w) = stdin (run forensic_module w) /\
   audit_log (run (route_to_module role) w) = audit_log (run forensic_module w)).
Proof. exact (route_to_module_cases role w). Qed.

(** ** What a granted session does *)

(** With granting input, [main] reaches its last block in a world that
    has gained terminal events and one random draw, and nothing else. *)
Lemma run_to_grant w username rest :
  granting_input w username rest ->
  exists w4 evs,
    main w = grant_access username w4 /\
    frame w w4 evs [] 0 1 0 /\
    stdin w4 = rest.
Proof.
  intros (stored & wrong & pin & scan & entered & Hin & Hdb & Hlen & Hwrong & Hpin & Hscan & Hotp).
  rewrite main_unfold.
  destruct (start_spec w) as (e0 & F0 & _ & H0). unfold run, outcome in F0, H0.
  destruct ((banner ;; input prompt_username) w) as [out0 w1]. cbn [fst snd] in F0, H0.
  rewrite Hin in H0. destruct H0 as [-> Hin1].
  assert (Hmem : dict_mem username USER_DB = true) by (unfold dict_mem; rewrite Hdb; reflexivity).
  rewrite Hmem. cbn [negb].
  destruct (verify_pin_reads username stored w1 Hdb) as [Hout1 Hin2].
  pose proof (verify_pin_spec username stored w1 Hdb) as (e1 & dc1 & F1 & _ & _ & _ & H1).
  unfold run, outcome in Hout1, Hin2, F1, H1.
  destruct (verify_pin username w1) as [out1 w2]. cbn [fst snd] in Hout1, Hin2, F1, H1.
  apply String.eqb_eq in Hpin.
  rewrite Hin1, (scan_pins_match stored 3 wrong pin _ Hlen Hwrong Hpin) in Hout1, Hin2.
  cbn [fst snd] in Hout1, Hin2. subst out1. destruct H1 as (_ & _ & ->). cbn [negb].
  destruct (simulate_biometric_spec w2) as (e2 & F2 & _ & H2).
  unfold run, outcome in F2, H2.
  destruct (simulate_biometric w2) as [out2 w3]. cbn [fst snd] in F2, H2.
  rewrite Hin2, Hscan in H2. destruct H2 as (-> & Hin3 & _). cbn [negb].
  destruct (simulate_otp_spec w3) as (e3 & F3 & _ & H3).
  unfold run, outcome in F3, H3.
  destruct (simulate_otp w3) as [out3 w4]. cbn [fst snd] in F3, H3.
  pose proof (frame_trans _ _ _ _ _ _ _ _ _ _ _ _ _ F0
                (frame_trans _ _ _ _ _ _ _ _ _ _ _ _ _ F1 F2)) as F.
  rewrite Hin3 in H3. destruct H3 as (Hout3 & Hin4 & _).
  rewrite (fr_rand_src _ _ _ _ _ _ _ F), (fr_rand _ _ _ _ _ _ _ F), Nat.add_0_r in Hout3.
  fold (next_otp w) in Hout3. rewrite <- Hotp, String.eqb_refl in Hout3. subst out3.
  cbn [negb]. exists w4, (e0 ++ e1 ++ e2 ++ e3). split; [reflexivity|].
  split; [|exact Hin4].
  exact (frame_trans _ _ _ _ _ _ _ _ _ _ _ _ _ F0
           (frame_trans _ _ _ _ _ _ _ _ _ _ _ _ _ F1
              (frame_trans _ _ _ _ _ _ _ _ _ _ _ _ _ F2 F3))).
Qed.

(** What a granted session logs and reads after the audit entry. *)
Lemma granted_session_log (w : World) (username : string)
    (rest : list string) :
  granting_input w username rest ->
  exists role,
    dict_find username USER_ROLES = Some role /\
    let entry :=
      (audit_entry username role true
         (strftime (local (clock_src w (clock_reads w))))
         (str_uuid (nth_uuid w (uuid_draws w))) ++ nl)%string in
    if String.eqb role "Analyst" then
      match rest with
      | evidence_id :: note :: rest' =>
          outcome main w = Ok tt /\
          audit_log (run main w) =
            audit_log w ++ [entry; (forensic_entry evidence_id note ++ nl)%string] /\
          stdin (run main w) = rest'
      | _ =>
          outcome main w = Raise EOFError /\
          audit_log (run main w) = audit_log w ++ [entry] /\
          stdin (run main w) = []
      end
    else
      outcome main w = Ok tt /\
      audit_log (run main w) = audit_log w ++ [entry] /\
      stdin (run main w) = rest.
Proof.
  intros Hgrant.
  assert (Hmem : dict_mem username USER_DB = true).
  { destruct Hgrant as (stored & _ & _ & _ & _ & _ & Hdb & _).
    unfold dict_mem. rewrite Hdb. reflexivity. }
  destruct (known_user_has_role _ Hmem) as [role Hrole].
  destruct (run_to_grant w username rest Hgrant) as (w4 & evs & Hrun & F & Hin4).
  exists role. split; [exact Hrole|]. cbv zeta.
  unfold outcome, run. rewrite Hrun, (grant_access_run username role w4 Hrole).
  cbv zeta. rewrite (nth_uuid_frame _ _ _ _ _ _ _ (uuid_draws w4) F).
  rewrite (fr_clock_src _ _ _ _ _ _ _ F), (fr_clock _ _ _ _ _ _ _ F),
    (fr_uuid _ _ _ _ _ _ _ F), !Nat.add_0_r.
  pose proof (fr_log _ _ _ _ _ _ _ F) as Hlog. rewrite app_nil_r in Hlog.
  set (entry := (audit_entry username role true
                   (strftime (local (clock_src w (clock_reads w))))
                   (str_uuid (nth_uuid w (uuid_draws w))))).
  match goal with
  | |- context [route_to_module role ?w'] => set (w5 := w')
  end.
  assert (Hin5 : stdin w5 = rest) by (subst w5; world_simpl; exact Hin4).
  assert (Hlog5 : audit_log w5 = audit_log w ++ [(entry ++ nl)%string])
    by (subst w5; world_simpl; rewrite Hlog; reflexivity).
  destruct (route_to_module_cases role w5) as (Hother & _ & Hanalyst).
  unfold outcome, run in Hother, Hanalyst.
  destruct (String.eqb_spec role "Analyst") as [Heq|Hne].
  - destruct (Hanalyst Heq) as (Hout & Hin & Hl). rewrite Hout, Hin, Hl.
    pose proof (forensic_module_effect w5) as Hf.
    unfold outcome, run in Hf. rewrite Hin5 in Hf.
    destruct rest as [|evidence_id [|note rest']].
    + destruct Hf as (-> & -> & ->). rewrite Hlog5. repeat split.
    + destruct Hf as (-> & -> & ->). rewrite Hlog5. repeat split.
    + destruct Hf as (-> & -> & -> & _). rewrite Hlog5, <- app_assoc. repeat split.
  - destruct (Hother Hne) as (-> & -> & ->). rewrite Hin5, Hlog5. repeat split.
Qed.

(** X7.  A granted session writes its audit entry before it routes.
    For the roles Admin and Guest the entry is all it logs, and the input
    after the OTP is left unread.  For the role Analyst the forensic
    module follows: with two more lines it logs the forensic entry after
    the audit entry; with fewer, [main] ends with [EOFError], the audit
    entry of the granted session already in the log. *)
Theorem granted_session_log_by_role (w : World) (username : string)
    (rest : list string) :
  granting_input w username rest ->
  exists role,
    dict_find username USER_ROLES = Some role /\
    let entry :=
      (audit_entry username role true
         (strftime (local (clock_src w (clock_reads w))))
         (str_uuid (nth_uuid w (uuid_draws w))) ++ nl)%string in
    if String.eqb role "Analyst" then
      match rest with
      | evidence_id :: note :: rest' =>
          outcome main w = Ok tt /\
          audit_log (run main w) =
            audit_log w ++ [entry; (forensic_entry evidence_id note ++ nl)%string] /\
          stdin (run main w) = rest'
      | _ =>
          outcome main w = Raise EOFError /\
          audit_log (run main w) = audit_log w ++ [entry] /\
          stdin (run main w) = []
      end
    else
      outcome main w = Ok tt /\
      audit_log (run main w) = audit_log w ++ [entry] /\
      stdin (run main w) = rest.
Proof. exact (granted_session_log w username rest). Qed.

Lemma granted_session_log_by_role_witness :
  exists role,
    dict_find "analyst" USER_ROLES = Some role /\
    outcome main (demo_world ["analyst"; "0000"; "3141"; "Scan"; "123456"; "ev-7"]) =
      Raise EOFError /\
    audit_log (run main (demo_world ["analyst"; "0000"; "3141"; "Scan"; "123456"; "ev-7"])) =
      [(audit_entry "analyst" role true "2025-07-04 09:05:00"
          "12345678-9abc-4ef0-9234-56789abcdef0" ++ nl)%string].
Proof.
  destruct (granted_session_log_by_role
              (demo_world ["analyst"; "0000"; "3141"; "Scan"; "123456"; "ev-7"])
              "analyst" ["ev-7"]) as (role & Hrole & H).
  - exists (SHA256.hexdigest "3141"), ["0000"], "3141", "Scan", "123456".
    repeat match goal with |- _ /\ _ => split end;
      try (vm_compute; reflexivity). cbn. lia.
  - exists role. split; [exact Hrole|].
    assert (role = "Analyst") as -> by (vm_compute in Hrole; congruence).
    cbv zeta in H. change (String.eqb "Analyst" "Analyst") with true in H.
    cbv iota in H. destruct H as (Hout & Hlog & _). split; [exact Hout|exact Hlog].
Defined.

(** ** What a session announces *)

Lemma steps_refl P w : steps P w w.
Proof. exists []. split; [symmetry; apply app_nil_r|constructor]. Qed.

Lemma steps_trans P w1 w2 w3 : steps P w1 w2 -> steps P w2 w3 -> steps P w1 w3.
Proof.
  intros (e1 & T1 & H1) (e2 & T2 & H2). exists (e1 ++ e2). split.
  - rewrite T2, T1. symmetry. apply app_assoc.
  - apply Forall_app. split; assumption.
Qed.

Lemma steps_weaken (P Q : Event -> Prop) w w' :
  (forall e, P e -> Q e) -> steps P w w' -> steps Q w w'.
Proof.
  intros HPQ (evs & T & H). exists evs. split; [exact T|].
  eapply Forall_impl; [exact HPQ|exact H].
Qed.

Lemma steps_emit P w w' e : steps P w w' -> P e -> steps P w (emit e w').
Proof.
  intros (evs & T & H) He. exists (evs ++ [e]). split.
  - world_simpl. rewrite T. symmetry. apply app_assoc.
  - apply Forall_app. split; [exact H|]. constructor; [exact He|constructor].
Qed.

Lemma steps_silent P w w' w'' :
  steps P w w' -> terminal w'' = terminal w' -> steps P w w''.
Proof. intros (evs & T & H) Hsame. exists evs. rewrite Hsame. auto. Qed.

(** Tells a printed line from the announcements by its first bytes. *)
Ltac other_line :=
  unfold msg_incorrect, msg_too_many, audit_entry, msg_granted, msg_locked, nl;
  cbn [String.append]; discriminate.

Ltac not_announced :=
  first [ split; other_line | other_line ].

(** Walks down an explicit chain of world updates. *)
Ltac steps_explicit :=
  repeat first
    [ apply steps_refl
    | apply steps_emit; [|not_announced]
    | eapply steps_silent; [|reflexivity] ].

Lemma start_steps w :
  steps not_announcing w (run (banner ;; input prompt_username) w).
Proof.
  unfold run, banner, bind, print, input. world_simpl.
  destruct (stdin w) as [|username rest]; cbn [snd].
  - steps_explicit.
  - eapply steps_silent with (w' := emit _ _); [|reflexivity]. steps_explicit.
Qed.

Lemma simulate_biometric_steps w : steps not_announcing w (run simulate_biometric w).
Proof.
  unfold run. rewrite simulate_biometric_run. cbv zeta.
  destruct (stdin w) as [|scan rest]; cbn [snd]; [steps_explicit|].
  destruct (String.eqb (lower scan) "scan"); cbn [snd];
    (apply steps_emit; [|not_announced];
     eapply steps_silent with (w' := emit _ _); [|reflexivity]; steps_explicit).
Qed.

Lemma simulate_otp_steps w : steps not_announcing w (run simulate_otp w).
Proof.
  unfold run. rewrite simulate_otp_run. cbv zeta.
  assert (Hpre : steps not_announcing w
            (emit (Print ("Your OTP is: " ++ next_otp w))
               (emit (Sleep 1) (emit (Print "📡 Sending OTP...") (next_rand w))))).
  { apply steps_emit; [|not_announced]. apply steps_emit; [|not_announced].
    apply steps_emit; [|not_announced].
    eapply steps_silent; [apply steps_refl|reflexivity]. }
  unfold next_otp in Hpre.
  destruct (stdin w) as [|entered rest]; cbn [snd].
  - apply steps_emit; [exact Hpre|not_announced].
  - match goal with
    | |- context [String.eqb entered ?o] => destruct (String.eqb entered o)
    end; cbn [snd];
      (apply steps_emit; [|not_announced];
       eapply steps_silent with (w' := emit _ _); [|reflexivity];
       apply steps_emit; [exact Hpre|not_announced]).
Qed.

Lemma verify_pin_loop_steps username fuel :
  forall l w,
    lockout_start l = None ->
    steps not_announcing w (run (verify_pin_loop fuel username l) w).
Proof.
  unfold run. induction fuel as [|fuel IH]; intros l w Hopen; [apply steps_refl|].
  cbn [verify_pin_loop].
  destruct (attempts l <? MAX_ATTEMPTS); [|apply steps_refl].
  unfold bind. rewrite (verify_pin_body_open username l w Hopen).
  destruct (stdin w) as [|pin rest]; cbn [snd]; [steps_explicit|]. cbv zeta.
  assert (Hasked : steps not_announcing w
                     (set_stdin rest (emit (Input prompt_pin (Some pin)) w))).
  { eapply steps_silent with (w' := emit _ _); [|reflexivity]. steps_explicit. }
  destruct (dict_find username USER_DB) as [stored|]; [|exact Hasked].
  destruct (String.eqb (hash_pin pin) stored); [exact Hasked|].
  assert (Htold : steps not_announcing w
                    (emit (Print (msg_incorrect (attempts l + 1)))
                       (set_stdin rest (emit (Input prompt_pin (Some pin)) w)))).
  { apply steps_emit; [exact Hasked|not_announced]. }
  destruct (attempts l + 1 >=? MAX_ATTEMPTS); cbn [snd].
  - apply steps_emit; [|not_announced].
    eapply steps_silent; [exact Htold|reflexivity].
  - eapply steps_trans; [exact Htold|]. apply IH. reflexivity.
Qed.

Lemma verify_pin_steps username w :
  steps not_announcing w (run (verify_pin username) w).
Proof. apply verify_pin_loop_steps. reflexivity. Qed.

(** The last block of [main] announces access, and no lockout. *)
Lemma grant_access_steps username w :
  exists evs,
    terminal (run (grant_access username) w) = terminal w ++ evs /\
    ~ In (Print msg_locked) evs /\
    (dict_mem username USER_DB = true -> In (Print msg_granted) evs).
Proof.
  unfold run.
  destruct (dict_find username USER_ROLES) as [role|] eqn:Hrole.
  2:{ exists []. unfold grant_access, dict_get, bind. rewrite Hrole.
      cbn [snd raise]. split; [symmetry; apply app_nil_r|]. split; [intros []|].
      intros Hmem. destruct (known_user_has_role _ Hmem) as [r Hr]. congruence. }
  rewrite (grant_access_run username role w Hrole). cbv zeta.
  match goal with
  | |- context [route_to_module role ?w'] => set (w5 := w')
  end.
  assert (H5 : exists e5, terminal w5 = terminal w ++ e5 /\
                          ~ In (Print msg_locked) e5 /\ In (Print msg_granted) e5).
  { eexists. split; [subst w5; world_simpl; rewrite <- !app_assoc; reflexivity|].
    cbn [app In]. split; [|auto].
    intros [H|[H|[H|[H|[]]]]]; revert H; other_line. }
  destruct H5 as (e5 & T5 & Hno5 & Hyes5).
  assert (H6 : exists e6, terminal (snd (route_to_module role w5)) = terminal w5 ++ e6 /\
                          ~ In (Print msg_locked) e6).
  { rewrite route_to_module_run.
    destruct (String.eqb role "Admin"); cbn [snd].
    { eexists. split; [world_simpl; rewrite <- !app_assoc; reflexivity|].
      cbn [app In]. intros [H|[H|[]]]; revert H; other_line. }
    destruct (String.eqb role "Analyst").
    { unfold forensic_module, bind, print, input, log_to_file. world_simpl.
      destruct (stdin w5) as [|evidence_id [|note rest]]; world_simpl;
        (eexists; split; [rewrite <- !app_assoc; reflexivity|]; cbn [app In];
         intros H; repeat (destruct H as [H|H]; [revert H; other_line|]);
         exact H). }
    destruct (String.eqb role "Guest"); cbn [snd].
    { eexists. split; [world_simpl; rewrite <- !app_assoc; reflexivity|].
      cbn [app In]. intros [H|[H|[]]]; revert H; other_line. }
    eexists. split; [world_simpl; reflexivity|].
    cbn [In]. intros [H|[]]; revert H; other_line. }
  destruct H6 as (e6 & T6 & Hno6).
  exists (e5 ++ e6). split; [rewrite T6, T5; symmetry; apply app_assoc|].
  split.
  - intros H. apply in_app_or in H. tauto.
  - intros _. apply in_or_app. left. exact Hyes5.
Qed.

Lemma steps_not_in P w w' (e : Event) :
  (forall x, P x -> x <> e) -> steps P w w' ->
  exists evs, terminal w' = terminal w ++ evs /\ ~ In e evs.
Proof.
  intros HP (evs & T & H). exists evs. split; [exact T|].
  intros Hin. rewrite Forall_forall in H. exact (HP e (H e Hin) eq_refl).
Qed.

(** What [main] announces, by the way the session ends. *)
Lemma main_announces w :
  exists evs,
    terminal (run main w) = terminal w ++ evs /\
    ~ In (Print msg_locked) evs /\
    (In (Print msg_granted) evs <-> exists username, session_verdict w = Granted username).
Proof.
  assert (Hquiet : forall w', steps not_announcing w w' ->
            (forall username, session_verdict w <> Granted username) ->
            exists evs,
              terminal w' = terminal w ++ evs /\
              ~ In (Print msg_locked) evs /\
              (In (Print msg_granted) evs <->
               exists username, session_verdict w = Granted username)).
  { intros w' (evs & T & H) Hv. exists evs. split; [exact T|].
    rewrite Forall_forall in H. split.
    - intros Hin. exact (proj2 (H _ Hin) eq_refl).
    - split; [intros Hin; exfalso; exact (proj1 (H _ Hin) eq_refl)|].
      intros [username Hu]. exfalso. exact (Hv username Hu). }
  unfold run in *. unfold session_verdict in *. rewrite main_unfold.
  pose proof (start_steps w) as S0. unfold run in S0.
  destruct ((banner ;; input prompt_username) w) as [[username| |] w1]; cbn [snd] in S0;
    try (apply Hquiet; [exact S0|discriminate]).
  destruct (dict_mem username USER_DB) eqn:Hmem; cbn [negb].
  2:{ apply Hquiet; [|discriminate]. unfold print. cbn [snd].
      apply steps_emit; [exact S0|not_announced]. }
  pose proof (verify_pin_steps username w1) as S1. unfold run in S1.
  destruct (verify_pin username w1) as [[[|]| |] w2]; cbn [snd negb] in S1 |- *;
    try (apply Hquiet; [exact (steps_trans _ _ _ _ S0 S1)|discriminate]).
  pose proof (simulate_biometric_steps w2) as S2. unfold run in S2.
  destruct (simulate_biometric w2) as [[[|]| |] w3]; cbn [snd negb] in S2 |- *;
    try (apply Hquiet;
         [exact (steps_trans _ _ _ _ S0 (steps_trans _ _ _ _ S1 S2))|discriminate]).
  pose proof (simulate_otp_steps w3) as S3. unfold run in S3.
  destruct (simulate_otp w3) as [[[|]| |] w4]; cbn [snd negb] in S3 |- *;
    try (apply Hquiet;
         [exact (steps_trans _ _ _ _ S0
                   (steps_trans _ _ _ _ S1 (steps_trans _ _ _ _ S2 S3)))|discriminate]).
  pose proof (steps_trans _ _ _ _ S0
                (steps_trans _ _ _ _ S1 (steps_trans _ _ _ _ S2 S3))) as S.
  destruct S as (evs & T & H).
  destruct (grant_access_steps username w4) as (e4 & T4 & Hno & Hyes).
  unfold run in T4. exists (evs ++ e4).
  split; [rewrite T4, T; symmetry; apply app_assoc|]. split.
  - intros Hin. apply in_app_or in Hin. destruct Hin as [Hin|Hin]; [|exact (Hno Hin)].
    rewrite Forall_forall in H. exact (proj2 (H _ Hin) eq_refl).
  - split; [intros _; eauto|]. intros _. apply in_or_app. right. exact (Hyes Hmem).
Qed.

(** X8.  The line "Access granted." appears on the terminal in the
    sessions that pass all three factors, and in no other: not for an
    unknown principal, not after a failed factor, not when input ends. *)
Theorem access_is_announced_iff_granted (w : World) :
  exists evs,
    terminal (run main w) = terminal w ++ evs /\
    (In (Print msg_granted) evs <->
     exists username, session_verdict w = Granted username).
Proof.
  destruct (main_announces w) as (evs & T & _ & H). exists evs. auto.
Qed.

(** X9.  No session ever prints "Account locked. Try again later.":
    what [main] adds to the terminal never holds that line, however many
    PINs were refused before. *)
Theorem no_session_reports_a_lockout (w : World) :
  exists evs,
    terminal (run main w) = terminal w ++ evs /\
    ~ In (Print msg_locked) evs.
Proof.
  destruct (main_announces w) as (evs & T & H & _). exists evs. auto.
Qed.

(** ** How a session ends *)

Lemma scan_pins_none stored budget lines :
  fst (scan_pins stored budget lines) = None ->
  snd (scan_pins stored budget lines) = [].
Proof.
  revert lines. induction budget as [|budget IH]; intros lines; [discriminate|].
  destruct lines as [|p lines]; cbn [scan_pins]; [reflexivity|].
  destruct (String.eqb (hash_pin p) stored); [discriminate|apply IH].
Qed.

Lemma simulate_biometric_reads w :
  match stdin w with
  | [] => outcome simulate_biometric w = Raise EOFError /\
          stdin (run simulate_biometric w) = []
  | scan :: rest =>
      outcome simulate_biometric w = Ok (String.eqb (lower scan) "scan") /\
      stdin (run simulate_biometric w) = rest
  end.
Proof.
  unfold outcome, run. rewrite simulate_biometric_run. cbv zeta.
  destruct (stdin w) as [|scan rest] eqn:Hin; [world_simpl; auto|].
  destruct (String.eqb (lower scan) "scan"); world_simpl; auto.
Qed.

Lemma simulate_otp_reads w :
  match stdin w with
  | [] => outcome simulate_otp w = Raise EOFError /\ stdin (run simulate_otp w) = []
  | entered :: rest =>
      outcome simulate_otp w = Ok (String.eqb entered (next_otp w)) /\
      stdin (run simulate_otp w) = rest
  end.
Proof.
  unfold outcome, run, next_otp. rewrite simulate_otp_run. cbv zeta.
  destruct (stdin w) as [|entered rest] eqn:Hin; [world_simpl; auto|].
  match goal with
  | |- context [String.eqb entered ?o] => destruct (String.eqb entered o)
  end; world_simpl; auto.
Qed.

Lemma grant_access_reads username w :
  dict_mem username USER_DB = true ->
  match outcome (grant_access username) w with
  | Ok _ =>
      (length (stdin w) <= length (stdin (run (grant_access username) w)) + 2)%nat
  | Raise e =>
      e = EOFError /\ stdin (run (grant_access username) w) = [] /\
      (length (stdin w) < 2)%nat
  | OutOfFuel => False
  end.
Proof.
  intros Hmem. destruct (known_user_has_role _ Hmem) as [role Hrole].
  unfold outcome, run. rewrite (grant_access_run username role w Hrole). cbv zeta.
  match goal with
  | |- context [route_to_module role ?w'] => set (w5 := w')
  end.
  assert (Hin5 : stdin w5 = stdin w) by reflexivity.
  destruct (route_to_module_cases role w5) as (Hother & _ & Hanalyst).
  unfold outcome, run in Hother, Hanalyst.
  destruct (String.eqb_spec role "Analyst") as [Heq|Hne].
  - destruct (Hanalyst Heq) as (-> & -> & _).
    pose proof (forensic_module_effect w5) as Hf.
    unfold outcome, run in Hf. rewrite Hin5 in Hf.
    destruct (stdin w) as [|evidence_id [|note rest]].
    + destruct Hf as (-> & _ & ->). cbn. auto.
    + destruct Hf as (-> & _ & ->). cbn. auto.
    + destruct Hf as (-> & _ & -> & _). cbn [length]. lia.
  - destruct (Hother Hne) as (-> & -> & _). rewrite Hin5. lia.
Qed.

(** How [main] ends, and how much input it takes. *)
Lemma main_reads w :
  match outcome main w with
  | Ok _ => (length (stdin w) <= length (stdin (run main w)) + 8)%nat
  | Raise e =>
      e = EOFError /\ stdin (run main w) = [] /\ (length (stdin w) < 8)%nat
  | OutOfFuel => False
  end.
Proof.
  unfold outcome, run. rewrite main_unfold.
  destruct (start_spec w) as (e0 & _ & _ & H0). unfold run, outcome in H0.
  assert (Hin0 : stdin w = [] -> stdin (snd ((banner ;; input prompt_username) w)) = []).
  { intros Hnil. unfold banner, bind, print, input. world_simpl. rewrite Hnil.
    world_simpl. exact Hnil. }
  destruct ((banner ;; input prompt_username) w) as [out0 w1]. cbn [fst snd] in H0, Hin0.
  destruct (stdin w) as [|username lines].
  { subst out0. cbn [fst snd length]. repeat split; [auto|lia]. }
  destruct H0 as [-> Hin1]. clear Hin0. cbn [length].
  destruct (dict_mem username USER_DB) eqn:Hmem; cbn [negb].
  2:{ unfold print. world_simpl. rewrite Hin1. lia. }
  destruct (dict_mem_find _ _ Hmem) as [stored Hdb].
  destruct (verify_pin_reads username stored w1 Hdb) as [Hout1 Hin2].
  unfold run, outcome in Hout1, Hin2.
  destruct (verify_pin username w1) as [out1 w2]. cbn [fst snd] in Hout1, Hin2.
  rewrite Hin1 in Hout1, Hin2.
  destruct (scan_pins_length stored 3 lines) as [Hlen1 Hnone1].
  pose proof (scan_pins_none stored 3 lines) as Hnil1.
  rewrite <- Hin2 in Hlen1, Hnil1.
  destruct (fst (scan_pins stored 3 lines)) as [[|]|]; subst out1; cbn [negb fst snd].
  3:{ specialize (Hnone1 eq_refl). repeat split; [auto|lia]. }
  2:{ lia. }
  pose proof (simulate_biometric_reads w2) as H2. unfold run, outcome in H2.
  destruct (simulate_biometric w2) as [out2 w3]. cbn [fst snd] in H2.
  destruct (stdin w2) as [|scan lines3].
  { destruct H2 as [-> Hnil]. cbn [fst snd length] in *. rewrite Hnil.
    repeat split; lia. }
  destruct H2 as [-> Hin3]. cbn [length] in Hlen1.
  destruct (String.eqb (lower scan) "scan"); cbn [negb fst snd]; [|rewrite Hin3; lia].
  pose proof (simulate_otp_reads w3) as H3. unfold run, outcome in H3.
  destruct (simulate_otp w3) as [out3 w4]. cbn [fst snd] in H3. rewrite Hin3 in H3.
  destruct lines3 as [|entered lines4].
  { destruct H3 as [-> Hnil]. cbn [fst snd length] in *. rewrite Hnil.
    repeat split; lia. }
  destruct H3 as [-> Hin4]. cbn [length] in Hlen1.
  destruct (String.eqb entered (next_otp w3)); cbn [negb fst snd]; [|rewrite Hin4; lia].
  pose proof (grant_access_reads username w4 Hmem) as H4. unfold run, outcome in H4.
  destruct (grant_access username w4) as [[[]|e|] w5]; cbn [fst snd] in H4 |- *;
    rewrite ?Hin4 in H4; [lia| |exact H4].
  destruct H4 as (-> & -> & H4). repeat split; lia.
Qed.

(** X10.  [main] ends normally or with [EOFError], never with
    [KeyError] (the role of every principal of the credential store is
    defined) and never for lack of fuel in the model of the loop.  It
    raises [EOFError] only when it has used up standard input, and it
    never reads more than eight lines: with eight lines waiting it always
    returns. *)
Theorem main_fails_only_at_end_of_input (w : World) :
  (outcome main w = Ok tt \/
   outcome main w = Raise EOFError /\ stdin (run main w) = []) /\
  (length (stdin w) <= length (stdin (run main w)) + 8)%nat /\
  ((8 <= length (stdin w))%nat -> outcome main w = Ok tt).
Proof.
  pose proof (main_reads w) as H.
  destruct (outcome main w) as [[]|e|]; [| |contradiction].
  - repeat split; auto.
  - destruct H as (-> & Hnil & Hlen). rewrite Hnil. cbn [length].
    split; [right; auto|]. split; [lia|]. intros H8. lia.
Qed.

(** ** Audit records as data *)

(** X11.  [log_audit] marks each record with its status: a call adds
    one to the number of audit entries of the status it was given
    (SUCCESS for True, FAILURE for False) and leaves the number with the
    other status as it was, whatever the principal, role and token. *)
Theorem log_audit_counts_by_status (username role token : string)
    (success : bool) (w : World) :
  let w' := run (log_audit username role success token) w in
  count_audit (status_tag success) (audit_log w') =
    S (count_audit (status_tag success) (audit_log w)) /\
  count_audit (status_tag (negb success)) (audit_log w') =
    count_audit (status_tag (negb success)) (audit_log w) /\
  count_audit "" (audit_log w') = S (count_audit "" (audit_log w)).
Proof.
  intros w'. subst w'. unfold run. rewrite log_audit_run. cbv zeta. world_simpl.
  rewrite !count_audit_app.
  assert (Hany : forall ts, is_audit "" (audit_entry username role success ts token ++ nl) = true)
    by (intros ts; destruct success; reflexivity).
  assert (Hown : forall ts, is_audit (status_tag success)
                   (audit_entry username role success ts token ++ nl) = true)
    by (intros ts; destruct success; reflexivity).
  assert (Hother : forall ts, is_audit (status_tag (negb success))
                     (audit_entry username role success ts token ++ nl) = false)
    by (intros ts; destruct success; reflexivity).
  unfold count_audit at 2 5 8. cbn [filter]. rewrite Hany, Hown, Hother.
  cbn [length]. lia.
Qed.

Lemma append_inj_r (a a' b b' : string) :
  String.length b = String.length b' ->
  (a ++ b = a' ++ b')%string -> a = a' /\ b = b'.
Proof.
  intros Hlen Heq. apply append_inj; [|exact Heq].
  apply (f_equal String.length) in Heq. rewrite !length_append in Heq. lia.
Qed.

Lemma known_user_cases username :
  dict_mem username USER_DB = true ->
  username = "admin" \/ username = "analyst" \/ username = "guest".
Proof.
  unfold dict_mem, USER_DB. cbn [dict_find].
  destruct (String.eqb_spec username "admin"); [auto|].
  destruct (String.eqb_spec username "analyst"); [auto|].
  destruct (String.eqb_spec username "guest"); [auto|discriminate].
Qed.

(** X12.  The record of a session names its principal and its token
    without ambiguity: two audit records for principals of the credential
    store that carry UUID tokens are the same text only if the status,
    the principal and the UUID are the same. *)
Theorem session_records_identify_principal_and_token
    (u u' r r' ts ts' : string) (s s' : bool) (a b : Z) :
  dict_mem u USER_DB = true ->
  dict_mem u' USER_DB = true ->
  0 <= a < 2 ^ 128 ->
  0 <= b < 2 ^ 128 ->
  audit_entry u r s ts (str_uuid a) = audit_entry u' r' s' ts' (str_uuid b) ->
  s = s' /\ u = u' /\ a = b.
Proof.
  intros Hu Hu' Ha Hb Heq.
  assert (Htok : a = b).
  { unfold audit_entry in Heq. rewrite <- !append_assoc in Heq.
    apply append_inj_r in Heq; [|rewrite !str_uuid_length; reflexivity].
    apply str_uuid_inj; tauto. }
  split; [|split; [|exact Htok]].
  - unfold audit_entry in Heq. apply (append_cancel_l "[AUDIT] ") in Heq.
    destruct s, s'; try reflexivity; cbn [status_tag String.append] in Heq;
      discriminate Heq.
  - assert (s = s') as <-.
    { unfold audit_entry in Heq. apply (append_cancel_l "[AUDIT] ") in Heq.
      destruct s, s'; try reflexivity; cbn [status_tag String.append] in Heq;
        discriminate Heq. }
    unfold audit_entry in Heq. apply (append_cancel_l "[AUDIT] ") in Heq.
    apply (append_cancel_l (status_tag s)) in Heq.
    apply (append_cancel_l " login for '") in Heq.
    destruct (known_user_cases u Hu) as [-> | [-> | ->]];
      destruct (known_user_cases u' Hu') as [-> | [-> | ->]];
      try reflexivity; cbn [String.append] in Heq; discriminate Heq.
Qed.

Lemma session_records_identify_principal_and_token_witness :
  true = true /\ "admin" = "admin" /\ 7 = 7.
Proof.
  apply (session_records_identify_principal_and_token
           "admin" "admin" "Admin" "Admin" "2025-07-04 09:05:00" "2025-07-04 09:05:00"
           true true 7 7); try reflexivity; lia.
Defined.

(** X13.  A session only ever appends to the log, and only when access
    is granted: then it adds one or two chunks (the audit entry, and for
    an analyst the forensic entry); in every other case the log is left
    exactly as it was.  No session adds a FAILURE entry. *)
Theorem session_appends_only_when_granted (w : World) :
  exists added,
    audit_log (run main w) = audit_log w ++ added /\
    count_audit "FAILURE" (audit_log (run main w)) =
      count_audit "FAILURE" (audit_log w) /\
    match session_verdict w with
    | Granted _ => (1 <= length added <= 2)%nat
    | _ => added = []
    end.
Proof.
  destruct (main_spec w) as (evs & chunks & dc & dr & du & F & k & b & o & _ & _ & _ & _ & _ & _ & H).
  exists chunks. split; [apply F|].
  rewrite (fr_log _ _ _ _ _ _ _ F), count_audit_app.
  destruct (session_verdict w) as [| | | |username|] eqn:Hv;
    try (assert (chunks = []) as -> by tauto; split; [cbn; lia|reflexivity]).
  destruct H as (_ & _ & _ & _ & role & forensic & _ & Hchunks & Hfor & _).
  split.
  - rewrite Hchunks. unfold count_audit at 2. cbn [filter].
    destruct (success_entry_is_audit username role
                (strftime (local (clock_src w (clock_reads w))))
                (str_uuid (nth_uuid w (uuid_draws w)))) as (_ & _ & Hf).
    rewrite Hf.
    rewrite (filter_nil_weaken (is_audit "FAILURE") (is_audit "") forensic
               (audit_of_any_status "FAILURE") Hfor). cbn. lia.
  - apply granted_verdict_input in Hv. destruct Hv as [rest Hgrant].
    destruct (granted_session_log w username rest Hgrant) as (role' & _ & Hlog).
    cbv zeta in Hlog. rewrite (fr_log _ _ _ _ _ _ _ F) in Hlog.
    assert (Hlen : forall l, audit_log w ++ chunks = audit_log w ++ l ->
                             length chunks = length l).
    { intros l Hl. apply app_inv_head in Hl. rewrite Hl. reflexivity. }
    destruct (String.eqb role' "Analyst").
    + destruct rest as [|evidence_id [|note rest']];
        destruct Hlog as (_ & Hlog & _); rewrite (Hlen _ Hlog); cbn; lia.
    + destruct Hlog as (_ & Hlog & _). rewrite (Hlen _ Hlog). cbn. lia.
Qed.
